(** * MeetingRoomBooker: storage layer, booking routes and LDAP login

    A shallow embedding of [server/storage.ts] (class [DatabaseStorage]),
    of the booking handlers registered by [registerRoutes], of the
    notification helpers of [server/emailService.ts] and of
    [AuthService.authenticateLDAP].

    Conventions.
    - A table is the list of its rows, in insertion order; a [serial]
      primary key is drawn from a per-table counter.
    - [date] and [time] columns are the strings the handlers exchange with
      the driver; the source compares them with the JavaScript operators
      [<], [<=], [>], [>=] on strings, i.e. lexicographically by code unit.
    - An [async] function that may throw returns a [result]; [await] is
      sequencing.  Connectivity failures of the database are not modelled,
      declared constraints of the schema (unique columns) are.
    - The clock, the mail provider and the LDAP directory are inputs. *)

From Stdlib Require Import String Ascii List Bool ZArith QArith Qround Lia.
From Stdlib Require Import Orders OrdersEx RelationClasses Permutation Sorted.
From Stdlib Require Import DecimalString.
Import ListNotations.

Local Open Scope string_scope.
Local Open Scope Z_scope.

(* ================================================================== *)
(** ** JavaScript comparison of strings *)

Module JsString.

(** [a < b], [a <= b], [a > b], [a >= b] on two strings. *)
Definition lt (a b : string) : bool := String.ltb a b.
Definition le (a b : string) : bool := String.leb a b.
Definition gt (a b : string) : bool := String.ltb b a.
Definition ge (a b : string) : bool := String.leb b a.

(** Truthiness of a string: the empty string is falsy. *)
Definition truthy (s : string) : bool :=
  match s with EmptyString => false | String _ _ => true end.

(** The order behind the four operators: lexicographic on the
    character codes, a proper prefix being smaller. *)
Definition Lts (a b : string) : Prop := String_as_OT.lt a b.
Definition Les (a b : string) : Prop := ~ Lts b a.

End JsString.

(* ================================================================== *)
(** ** Errors and the result of an [async] function *)

Inductive Exn : Type :=
| ZodError (issue : string)
| JsError (message : string)
| LdapError (message : string)
| DbError (message : string).

Inductive result (A : Type) : Type :=
| Ok (a : A)
| Throw (e : Exn).
Arguments Ok {A} a.
Arguments Throw {A} e.

Definition bind {A B : Type} (r : result A) (k : A -> result B) : result B :=
  match r with
  | Ok a => k a
  | Throw e => Throw e
  end.

Notation "'let*' x ':=' r 'in' k" := (bind r (fun x => k))
  (at level 10, x name, r at level 100, k at level 200).

(* ================================================================== *)
(** ** shared/schema.ts: the tables *)

(** A [jsonb] value, as far as the configuration blobs need it. *)
Inductive Json : Type :=
| JNull
| JString (s : string)
| JObject (fields : list (string * string)).

Module User.
Record t : Type := mk {
  id : string;
  username : option string;
  email : option string;
  password : option string;
  firstName : option string;
  lastName : option string;
  profileImageUrl : option string;
  role : string;
  authType : string;
  createdAt : Z;
  updatedAt : Z
}.
End User.

Module Room.
Record t : Type := mk {
  id : Z;
  name : string;
  floor : string;
  equipment : list string;
  isActive : bool;
  createdAt : Z;
  updatedAt : Z
}.
End Room.

Module Booking.
Record t : Type := mk {
  id : Z;
  title : string;
  description : option string;
  userId : string;
  roomId : Z;
  date : string;
  startTime : string;
  endTime : string;
  attendees : list string;
  status : string;
  createdAt : Z;
  updatedAt : Z
}.
End Booking.

Module AuthConfig.
Record t : Type := mk {
  id : Z;
  authType : string;
  isActive : bool;
  config : Json;
  createdAt : Z;
  updatedAt : Z
}.
End AuthConfig.

(** [InsertBooking]: the insert schema omits [id], [createdAt] and
    [updatedAt]; nullable columns and columns with a default are optional. *)
Record InsertBooking : Type := mkInsertBooking {
  ib_title : string;
  ib_description : option string;
  ib_userId : string;
  ib_roomId : Z;
  ib_date : string;
  ib_startTime : string;
  ib_endTime : string;
  ib_attendees : option (list string);
  ib_status : option string
}.

(** [Partial<InsertBooking>]. *)
Record PartialBooking : Type := mkPartialBooking {
  pb_title : option string;
  pb_description : option (option string);
  pb_userId : option string;
  pb_roomId : option Z;
  pb_date : option string;
  pb_startTime : option string;
  pb_endTime : option string;
  pb_attendees : option (list string);
  pb_status : option string
}.

(** [InsertRoom]. *)
Record InsertRoom : Type := mkInsertRoom {
  ir_name : string;
  ir_floor : string;
  ir_equipment : option (list string);
  ir_isActive : option bool
}.

(** [BookingWithDetails]: a booking left-joined with its user and room. *)
Record BookingWithDetails : Type := mkBookingWithDetails {
  bwd_booking : Booking.t;
  bwd_user : option User.t;
  bwd_room : option Room.t
}.

(** The database: the four tables and the three [serial] sequences
    (the value the next insert receives). *)
Record Db : Type := mkDb {
  users : list User.t;
  rooms : list Room.t;
  bookings : list Booking.t;
  authConfig : list AuthConfig.t;
  rooms_id_seq : Z;
  bookings_id_seq : Z;
  auth_config_id_seq : Z
}.

Definition emptyDb : Db := mkDb [] [] [] [] 1 1 1.

Definition with_users (d : Db) (us : list User.t) : Db :=
  mkDb us (rooms d) (bookings d) (authConfig d)
       (rooms_id_seq d) (bookings_id_seq d) (auth_config_id_seq d).

Definition with_rooms (d : Db) (rs : list Room.t) (seq : Z) : Db :=
  mkDb (users d) rs (bookings d) (authConfig d)
       seq (bookings_id_seq d) (auth_config_id_seq d).

Definition with_bookings (d : Db) (bs : list Booking.t) (seq : Z) : Db :=
  mkDb (users d) (rooms d) bs (authConfig d)
       (rooms_id_seq d) seq (auth_config_id_seq d).

Definition with_authConfig (d : Db) (cs : list AuthConfig.t) (seq : Z) : Db :=
  mkDb (users d) (rooms d) (bookings d) cs
       (rooms_id_seq d) (bookings_id_seq d) seq.

(* ================================================================== *)
(** ** server/storage.ts: class [DatabaseStorage] *)

(** JavaScript truthiness of a number ([NaN] does not occur here). *)
Definition truthy_number (n : Z) : bool := negb (n =? 0).

(** Truthiness of an optional argument or property. *)
Definition truthy_opt {A : Type} (truthy : A -> bool) (o : option A) : bool :=
  match o with
  | Some a => truthy a
  | None => false
  end.

(** [a || b] on an optional property with a fallback. *)
Definition or_else {A : Type} (truthy : A -> bool) (o : option A) (d : A) : A :=
  match o with
  | Some a => if truthy a then a else d
  | None => d
  end.

(** [Math.round]: the nearest integer, a half rounding towards
    [+Infinity].  Numbers are exact rationals here. *)
Definition Math_round (q : Q) : Z := Qfloor (q + (1 # 2))%Q.

(** [ORDER BY] one text column, ascending: a stable insertion sort. *)
Section OrderBy.
Context {A : Type} (key : A -> string).

Fixpoint insert_asc (x : A) (l : list A) : list A :=
  match l with
  | [] => [x]
  | y :: l' =>
      if JsString.le (key x) (key y) then x :: l else y :: insert_asc x l'
  end.

Definition orderBy_asc (l : list A) : list A :=
  fold_right (fun x acc => insert_asc x acc) [] l.

End OrderBy.

Record BookingStats : Type := mkBookingStats {
  totalRooms : Z;
  availableRooms : Z;
  totalBookingsToday : Z;
  utilizationRate : Z
}.

Module Storage.

(** *** User operations *)

Definition getUser (d : Db) (id : string) : option User.t :=
  find (fun u => String.eqb (User.id u) id) (users d).

Definition getUserByUsername (d : Db) (username : string) : option User.t :=
  find (fun u => match User.username u with
                 | Some n => String.eqb n username
                 | None => false
                 end) (users d).

(** The [userData] object handed to [createOrUpdateUser] by the LDAP
    login: the properties it carries. *)
Record UserData : Type := mkUserData {
  ud_id : string;
  ud_username : string;
  ud_email : string;
  ud_firstName : string;
  ud_lastName : string;
  ud_role : string;
  ud_authType : string
}.

(** A row other than the one keyed [ud_id] already holds the username or
    the email: the [unique] columns of [users] refuse the statement. *)
Definition unique_violation (us : list User.t) (u : UserData) : bool :=
  existsb (fun r =>
    negb (String.eqb (User.id r) (ud_id u)) &&
    ((match User.username r with
      | Some n => String.eqb n (ud_username u) | None => false end) ||
     (match User.email r with
      | Some m => String.eqb m (ud_email u) | None => false end))) us.

Definition user_of_data (now : Z) (u : UserData) : User.t :=
  User.mk (ud_id u) (Some (ud_username u)) (Some (ud_email u)) None
          (Some (ud_firstName u)) (Some (ud_lastName u)) None
          (ud_role u) (ud_authType u) now now.

(** [set: { ...userData, updatedAt: new Date() }] on the conflicting row. *)
Definition user_set (now : Z) (u : UserData) (r : User.t) : User.t :=
  User.mk (ud_id u) (Some (ud_username u)) (Some (ud_email u))
          (User.password r)
          (Some (ud_firstName u)) (Some (ud_lastName u))
          (User.profileImageUrl r)
          (ud_role u) (ud_authType u) (User.createdAt r) now.

Definition createOrUpdateUser (d : Db) (now : Z) (u : UserData)
  : result (Db * User.t) :=
  if unique_violation (users d) u then
    Throw (DbError "duplicate key value violates unique constraint")
  else
    match find (fun r => String.eqb (User.id r) (ud_id u)) (users d) with
    | Some r =>
        let r' := user_set now u r in
        Ok (with_users d
              (map (fun x => if String.eqb (User.id x) (ud_id u)
                             then user_set now u x else x) (users d)),
            r')
    | None =>
        let r' := user_of_data now u in
        Ok (with_users d (users d ++ [r'])%list, r')
    end.

(** *** Auth configuration operations *)

Definition getActiveAuthConfig (d : Db) : option AuthConfig.t :=
  find AuthConfig.isActive (authConfig d).

Definition deactivate (c : AuthConfig.t) : AuthConfig.t :=
  AuthConfig.mk (AuthConfig.id c) (AuthConfig.authType c) false
                (AuthConfig.config c)
                (AuthConfig.createdAt c) (AuthConfig.updatedAt c).

Definition setAuthConfig (d : Db) (now : Z) (authType : string) (config : Json)
  : Db :=
  (* Deactivate all existing configs *)
  let d1 := with_authConfig d (map deactivate (authConfig d))
                            (auth_config_id_seq d) in
  (* Insert the new config *)
  let row := AuthConfig.mk (auth_config_id_seq d1) authType true config
                           now now in
  with_authConfig d1 (authConfig d1 ++ [row])%list (auth_config_id_seq d1 + 1).

(** *** Room operations *)

Definition getAllRooms (d : Db) : list Room.t :=
  orderBy_asc Room.name (rooms d).

Definition getActiveRooms (d : Db) : list Room.t :=
  orderBy_asc Room.name (filter Room.isActive (rooms d)).

Definition getRoom (d : Db) (id : Z) : option Room.t :=
  find (fun r => Room.id r =? id) (rooms d).

Definition createRoom (d : Db) (now : Z) (room : InsertRoom) : Db * Room.t :=
  let row := Room.mk (rooms_id_seq d) (ir_name room) (ir_floor room)
                     (match ir_equipment room with Some e => e | None => [] end)
                     (match ir_isActive room with Some a => a | None => true end)
                     now now in
  (with_rooms d (rooms d ++ [row])%list (rooms_id_seq d + 1), row).

Definition set_inactive (r : Room.t) : Room.t :=
  Room.mk (Room.id r) (Room.name r) (Room.floor r) (Room.equipment r)
          false (Room.createdAt r) (Room.updatedAt r).

Definition deleteRoom (d : Db) (id : Z) : Db :=
  with_rooms d
    (map (fun r => if Room.id r =? id then set_inactive r else r) (rooms d))
    (rooms_id_seq d).

(** *** Booking operations *)

Definition getBooking (d : Db) (id : Z) : option BookingWithDetails :=
  match find (fun b => Booking.id b =? id) (bookings d) with
  | None => None
  | Some b =>
      Some (mkBookingWithDetails b
              (find (fun u => String.eqb (User.id u) (Booking.userId b))
                    (users d))
              (find (fun r => Room.id r =? Booking.roomId b) (rooms d)))
  end.

Definition createBooking (d : Db) (now : Z) (booking : InsertBooking)
  : Db * Booking.t :=
  let row :=
    Booking.mk (bookings_id_seq d)
      (ib_title booking) (ib_description booking) (ib_userId booking)
      (ib_roomId booking) (ib_date booking)
      (ib_startTime booking) (ib_endTime booking)
      (match ib_attendees booking with Some a => a | None => [] end)
      (match ib_status booking with Some s => s | None => "confirmed" end)
      now now in
  (with_bookings d (bookings d ++ [row])%list (bookings_id_seq d + 1), row).

Definition upd {A : Type} (o : option A) (old : A) : A :=
  match o with Some a => a | None => old end.

(** [set({ ...booking, updatedAt: new Date() })] on one row. *)
Definition booking_set (now : Z) (p : PartialBooking) (b : Booking.t)
  : Booking.t :=
  Booking.mk (Booking.id b)
    (upd (pb_title p) (Booking.title b))
    (upd (pb_description p) (Booking.description b))
    (upd (pb_userId p) (Booking.userId b))
    (upd (pb_roomId p) (Booking.roomId b))
    (upd (pb_date p) (Booking.date b))
    (upd (pb_startTime p) (Booking.startTime b))
    (upd (pb_endTime p) (Booking.endTime b))
    (upd (pb_attendees p) (Booking.attendees b))
    (upd (pb_status p) (Booking.status b))
    (Booking.createdAt b) now.

Definition updateBooking (d : Db) (now : Z) (id : Z) (booking : PartialBooking)
  : Db * option Booking.t :=
  let bs := map (fun b => if Booking.id b =? id
                          then booking_set now booking b else b)
                (bookings d) in
  (with_bookings d bs (bookings_id_seq d),
   find (fun b => Booking.id b =? id) bs).

Definition deleteBooking (d : Db) (id : Z) : Db :=
  with_bookings d
    (filter (fun b => negb (Booking.id b =? id)) (bookings d))
    (bookings_id_seq d).

(** *** Availability checking *)

(** The test of the loop body: "Check if times overlap". *)
Definition times_conflict (startTime endTime bookingStart bookingEnd : string)
  : bool :=
  (JsString.ge startTime bookingStart && JsString.lt startTime bookingEnd) ||
  (JsString.gt endTime bookingStart && JsString.le endTime bookingEnd) ||
  (JsString.le startTime bookingStart && JsString.ge endTime bookingEnd).

(** The [for ... of] loop with its [continue] and its early [return]. *)
Fixpoint scan_conflicts (startTime endTime : string)
    (excludeBookingId : option Z) (conflictingBookings : list Booking.t)
  : bool :=
  match conflictingBookings with
  | [] => true
  | booking :: rest =>
      if truthy_opt truthy_number excludeBookingId &&
         match excludeBookingId with
         | Some x => Booking.id booking =? x
         | None => false
         end
      then scan_conflicts startTime endTime excludeBookingId rest
      else if times_conflict startTime endTime
                (Booking.startTime booking) (Booking.endTime booking)
      then false
      else scan_conflicts startTime endTime excludeBookingId rest
  end.

Definition checkRoomAvailability (d : Db) (roomId : Z) (date : string)
    (startTime endTime : string) (excludeBookingId : option Z) : bool :=
  let conditions : list (Booking.t -> bool) :=
    [ (fun b => Booking.roomId b =? roomId);
      (fun b => String.eqb (Booking.date b) date);
      (fun b => String.eqb (Booking.status b) "confirmed") ] in
  let conditions :=
    if truthy_opt truthy_number excludeBookingId
    then (conditions ++
          [ fun b => match excludeBookingId with
                     | Some x => Booking.id b =? x
                     | None => false
                     end ])%list
    else conditions in
  let where_ :=
    if truthy_opt truthy_number excludeBookingId
    then removelast conditions
    else conditions in
  let conflictingBookings :=
    filter (fun b => forallb (fun c => c b) where_) (bookings d) in
  scan_conflicts startTime endTime excludeBookingId conflictingBookings.

(** *** Dashboard statistics *)

(** [today] and [currentTime] are the two readings of the clock:
    the ISO date and the [HH:MM] prefix of the time string. *)
Definition getBookingStats (d : Db) (today currentTime : string)
  : BookingStats :=
  let totalRooms := Z.of_nat (length (filter Room.isActive (rooms d))) in
  let todayBookings :=
    filter (fun b => String.eqb (Booking.date b) today &&
                     String.eqb (Booking.status b) "confirmed")
           (bookings d) in
  let availableRooms :=
    totalRooms -
    Z.of_nat (length (filter
      (fun booking =>
         JsString.le (Booking.startTime booking) currentTime &&
         JsString.gt (Booking.endTime booking) currentTime)
      todayBookings)) in
  let utilizationRate :=
    if totalRooms >? 0
    then Math_round
           (inject_Z (Z.of_nat (length todayBookings))
              / inject_Z (totalRooms * 8) * inject_Z 100)%Q
    else 0 in
  mkBookingStats totalRooms availableRooms
                 (Z.of_nat (length todayBookings)) utilizationRate.

End Storage.

(* ================================================================== *)
(** ** server/emailService.ts: notification mails *)

Record BookingEmailData : Type := mkBookingEmailData {
  ed_title : string;
  ed_roomName : string;
  ed_date : string;
  ed_startTime : string;
  ed_endTime : string;
  ed_description : option string;
  ed_organizerName : string;
  ed_organizerEmail : string
}.

(** One message handed to the provider; [mail_data] stands for the HTML
    body, which is rendered from these data alone. *)
Record Mail : Type := mkMail {
  mail_to : string;
  mail_from : string;
  mail_subject : string;
  mail_data : BookingEmailData
}.

(** The SendGrid client: whether [SENDGRID_API_KEY] is set, and whether
    [mailService.send] resolves ([true]) or rejects ([false]). *)
Record MailService : Type := mkMailService {
  configured : bool;
  send : list Mail -> bool
}.

Definition Console : Type := list string.

Module EmailService.

Definition sendBookingInvites (ms : MailService) (attendees : list string)
    (bookingData : BookingEmailData) (console : Console)
  : Console * result bool :=
  if negb (configured ms) then
    ((console ++ ["SendGrid not configured. Email invites would be sent to:"])%list,
     Ok true)
  else
    let subject := "Meeting Invitation: " ++ ed_title bookingData in
    let emails :=
      map (fun email =>
             mkMail email (ed_organizerEmail bookingData) subject bookingData)
          attendees in
    if send ms emails
    then ((console ++ ["Email invites sent"])%list, Ok true)
    else ((console ++ ["Failed to send email invites:"])%list, Ok false).

Definition sendBookingConfirmation (ms : MailService) (organizerEmail : string)
    (bookingData : BookingEmailData) (console : Console)
  : Console * result bool :=
  if negb (configured ms) then
    ((console ++
      ["SendGrid not configured. Confirmation email would be sent to:"])%list,
     Ok true)
  else
    let subject := "Booking Confirmed: " ++ ed_title bookingData in
    if send ms [mkMail organizerEmail organizerEmail subject bookingData]
    then ((console ++ ["Booking confirmation sent"])%list, Ok true)
    else ((console ++ ["Failed to send booking confirmation:"])%list, Ok false).

End EmailService.

(** What the booking route imports from the mail module: two [async]
    functions that write to the console and resolve to a boolean or throw. *)
Record Notifier : Type := mkNotifier {
  invites : list string -> BookingEmailData -> Console -> Console * result bool;
  confirmation : string -> BookingEmailData -> Console -> Console * result bool
}.

Definition sendgrid (ms : MailService) : Notifier :=
  mkNotifier (EmailService.sendBookingInvites ms)
             (EmailService.sendBookingConfirmation ms).

(* ================================================================== *)
(** ** [registerRoutes]: the booking handlers *)

(** A property of a request body as the validator sees it: missing, of
    the wrong type (with its truthiness), or a value of the right type. *)
Inductive Field (A : Type) : Type :=
| Absent
| Malformed (truthy : bool)
| Present (a : A).
Arguments Absent {A}.
Arguments Malformed {A} truthy.
Arguments Present {A} a.

(** The JSON body of [POST /api/bookings] and [PUT /api/bookings/:id].
    A [null] description is [Present None]. *)
Record BookingBody : Type := mkBookingBody {
  rb_title : Field string;
  rb_description : Field (option string);
  rb_userId : Field string;
  rb_roomId : Field Z;
  rb_date : Field string;
  rb_startTime : Field string;
  rb_endTime : Field string;
  rb_attendees : Field (list string);
  rb_status : Field string;
  rb_sendInvite : bool
}.

Inductive Json_body : Type :=
| BookingJson (b : Booking.t)
| MessageJson (message : string)
| ErrorsJson (message : string) (errors : string)
| UndefinedJson
| NoContent.

Record Response : Type := mkResponse {
  status : Z;
  body : Json_body
}.

(** The server: the database and what was written to the console. *)
Record World : Type := mkWorld {
  db : Db;
  console : Console
}.

(** The clock and the mail module. *)
Record Env : Type := mkEnv {
  now : Z;
  notifier : Notifier
}.

Module Zod.

Definition required {A : Type} (path : string) (f : Field A) : result A :=
  match f with
  | Present a => Ok a
  | _ => Throw (ZodError path)
  end.

Definition optional {A : Type} (path : string) (f : Field A)
  : result (option A) :=
  match f with
  | Present a => Ok (Some a)
  | Absent => Ok None
  | Malformed _ => Throw (ZodError path)
  end.

(** [insertBookingSchema.parse]. *)
Definition insertBookingSchema_parse (b : BookingBody) : result InsertBooking :=
  let* title := required "title" (rb_title b) in
  let* description := optional "description" (rb_description b) in
  let* userId := required "userId" (rb_userId b) in
  let* roomId := required "roomId" (rb_roomId b) in
  let* date := required "date" (rb_date b) in
  let* startTime := required "startTime" (rb_startTime b) in
  let* endTime := required "endTime" (rb_endTime b) in
  let* attendees := optional "attendees" (rb_attendees b) in
  let* status := optional "status" (rb_status b) in
  Ok (mkInsertBooking title
        (match description with Some o => o | None => None end)
        userId roomId date startTime endTime attendees status).

(** [insertBookingSchema.partial().parse]. *)
Definition insertBookingSchema_partial_parse (b : BookingBody)
  : result PartialBooking :=
  let* title := optional "title" (rb_title b) in
  let* description := optional "description" (rb_description b) in
  let* userId := optional "userId" (rb_userId b) in
  let* roomId := optional "roomId" (rb_roomId b) in
  let* date := optional "date" (rb_date b) in
  let* startTime := optional "startTime" (rb_startTime b) in
  let* endTime := optional "endTime" (rb_endTime b) in
  let* attendees := optional "attendees" (rb_attendees b) in
  let* status := optional "status" (rb_status b) in
  Ok (mkPartialBooking title description userId roomId date startTime endTime
        attendees status).

End Zod.

(** [String.prototype.trim], on the ASCII white space. *)
Definition is_white_space (c : ascii) : bool :=
  let n := N_of_ascii c in
  ((9 <=? n)%N && (n <=? 13)%N) || (n =? 32)%N.

Fixpoint trimStart (s : string) : string :=
  match s with
  | EmptyString => EmptyString
  | String c s' => if is_white_space c then trimStart s' else s
  end.

Fixpoint trimEnd (s : string) : string :=
  match s with
  | EmptyString => EmptyString
  | String c s' =>
      match trimEnd s' with
      | EmptyString => if is_white_space c then EmptyString
                       else String c EmptyString
      | t => String c t
      end
  end.

Definition trim (s : string) : string := trimEnd (trimStart s).

(** [s || ''] *)
Definition str_or_empty (o : option string) : string :=
  or_else JsString.truthy o "".

Module Routes.

Definition log (w : World) (line : string) : World :=
  mkWorld (db w) (console w ++ [line])%list.

(** [user?.role !== "admin"] is the negation of this test. *)
Definition is_admin (user : option User.t) : bool :=
  match user with
  | Some u => String.eqb (User.role u) "admin"
  | None => false
  end.

Definition emailData_of (validatedBooking : InsertBooking)
    (user : User.t) (room : Room.t) : BookingEmailData :=
  mkBookingEmailData
    (ib_title validatedBooking)
    (Room.name room)
    (ib_date validatedBooking)
    (ib_startTime validatedBooking)
    (ib_endTime validatedBooking)
    (ib_description validatedBooking)
    (let full := trim (str_or_empty (User.firstName user) ++ " " ++
                       str_or_empty (User.lastName user)) in
     if JsString.truthy full then full
     else or_else JsString.truthy (User.email user) "Unknown")
    (or_else JsString.truthy (User.email user) "noreply@roombook.com").

(** The inner [try { ... } catch (emailError) { console.error(...) }]. *)
Definition send_notifications (n : Notifier) (d : Db) (c : Console)
    (userId : string) (validatedBooking : InsertBooking)
    (attendees : list string) : Console :=
  let attempt : Console * result unit :=
    match Storage.getUser d userId,
          Storage.getRoom d (ib_roomId validatedBooking) with
    | Some user, Some room =>
        let emailData := emailData_of validatedBooking user room in
        (* Send invites to attendees *)
        match invites n attendees emailData c with
        | (c1, Throw e) => (c1, Throw e)
        | (c1, Ok _) =>
            (* Send confirmation to organizer *)
            match confirmation n
                    (or_else JsString.truthy (User.email user)
                             "noreply@roombook.com")
                    emailData c1 with
            | (c2, Throw e) => (c2, Throw e)
            | (c2, Ok _) => (c2, Ok tt)
            end
        end
    | _, _ => (c, Ok tt)
    end in
  match attempt with
  | (c', Ok _) => c'
  | (c', Throw _) => (c' ++ ["Failed to send notifications:"])%list
  end.

(** [attendees || []] *)
Definition attendees_or_empty (f : Field (list string)) : Field (list string) :=
  match f with
  | Present a => Present a
  | Malformed true => Malformed true
  | Malformed false => Present []
  | Absent => Present []
  end.

(** [attendees?.length > 0] *)
Definition has_attendees (f : Field (list string)) : bool :=
  match f with
  | Present a => (0 <? Z.of_nat (length a))
  | _ => false
  end.

Definition attendees_list (f : Field (list string)) : list string :=
  match f with
  | Present a => a
  | _ => []
  end.

(** [insertBookingSchema.parse({ ...bookingData, userId,
    attendees: attendees || [] })] *)
Definition validate_new (userId : string) (req : BookingBody)
  : result InsertBooking :=
  Zod.insertBookingSchema_parse
    (mkBookingBody (rb_title req) (rb_description req) (Present userId)
       (rb_roomId req) (rb_date req) (rb_startTime req) (rb_endTime req)
       (attendees_or_empty (rb_attendees req)) (rb_status req)
       (rb_sendInvite req)).

(** [app.post("/api/bookings", isAuthenticated, ...)]; [userId] is
    [req.user.claims.sub]. *)
Definition post_bookings (env : Env) (w : World) (userId : string)
    (req : BookingBody) : World * Response :=
  let attendees := rb_attendees req in
  let sendInvite := rb_sendInvite req in
  match validate_new userId req with
  | Throw (ZodError errors) =>
      (w, mkResponse 400 (ErrorsJson "Invalid booking data" errors))
  | Throw _ =>
      (log w "Error creating booking:",
       mkResponse 500 (MessageJson "Failed to create booking"))
  | Ok validatedBooking =>
      (* Check availability *)
      let isAvailable :=
        Storage.checkRoomAvailability (db w)
          (ib_roomId validatedBooking) (ib_date validatedBooking)
          (ib_startTime validatedBooking) (ib_endTime validatedBooking)
          None in
      if negb isAvailable then
        (w, mkResponse 409
              (MessageJson "Room is not available at the requested time"))
      else
        let (d1, booking) :=
          Storage.createBooking (db w) (now env) validatedBooking in
        (* Send notifications if requested *)
        let c1 :=
          if sendInvite && has_attendees attendees
          then send_notifications (notifier env) d1 (console w) userId
                 validatedBooking (attendees_list attendees)
          else console w in
        (mkWorld d1 c1, mkResponse 201 (BookingJson booking))
  end.

(** [app.put("/api/bookings/:id", isAuthenticated, ...)]; [bookingId] is
    [parseInt(req.params.id)]. *)
Definition put_booking (env : Env) (w : World) (userId : string)
    (bookingId : Z) (req : BookingBody) : World * Response :=
  let user := Storage.getUser (db w) userId in
  match Storage.getBooking (db w) bookingId with
  | None => (w, mkResponse 404 (MessageJson "Booking not found"))
  | Some existing =>
      let existingBooking := bwd_booking existing in
      (* Check if user owns the booking or is admin *)
      if negb (String.eqb (Booking.userId existingBooking) userId) &&
         negb (is_admin user)
      then (w, mkResponse 403 (MessageJson "Access denied"))
      else
        match Zod.insertBookingSchema_partial_parse req with
        | Throw (ZodError errors) =>
            (w, mkResponse 400 (ErrorsJson "Invalid booking data" errors))
        | Throw _ =>
            (log w "Error updating booking:",
             mkResponse 500 (MessageJson "Failed to update booking"))
        | Ok validatedBooking =>
            (* Check availability if time or date is being changed *)
            let rejected :=
              if truthy_opt JsString.truthy (pb_date validatedBooking) ||
                 truthy_opt JsString.truthy (pb_startTime validatedBooking) ||
                 truthy_opt JsString.truthy (pb_endTime validatedBooking) ||
                 truthy_opt truthy_number (pb_roomId validatedBooking)
              then
                negb (Storage.checkRoomAvailability (db w)
                        (or_else truthy_number (pb_roomId validatedBooking)
                                 (Booking.roomId existingBooking))
                        (or_else JsString.truthy (pb_date validatedBooking)
                                 (Booking.date existingBooking))
                        (or_else JsString.truthy (pb_startTime validatedBooking)
                                 (Booking.startTime existingBooking))
                        (or_else JsString.truthy (pb_endTime validatedBooking)
                                 (Booking.endTime existingBooking))
                        (Some bookingId))
              else false in
            if rejected then
              (w, mkResponse 409
                    (MessageJson "Room is not available at the requested time"))
            else
              let (d1, booking) :=
                Storage.updateBooking (db w) (now env) bookingId
                                      validatedBooking in
              (mkWorld d1 (console w),
               mkResponse 200
                 (match booking with
                  | Some b => BookingJson b
                  | None => UndefinedJson
                  end))
        end
  end.

(** [app.delete("/api/bookings/:id", isAuthenticated, ...)]. *)
Definition delete_booking (w : World) (userId : string) (bookingId : Z)
  : World * Response :=
  let user := Storage.getUser (db w) userId in
  match Storage.getBooking (db w) bookingId with
  | None => (w, mkResponse 404 (MessageJson "Booking not found"))
  | Some existing =>
      let existingBooking := bwd_booking existing in
      (* Check if user owns the booking or is admin *)
      if negb (String.eqb (Booking.userId existingBooking) userId) &&
         negb (is_admin user)
      then (w, mkResponse 403 (MessageJson "Access denied"))
      else
        (mkWorld (Storage.deleteBooking (db w) bookingId) (console w),
         mkResponse 204 NoContent)
  end.

End Routes.

(* ================================================================== *)
(** ** [AuthService.authenticateLDAP] *)

(** [String.prototype.replace] with a string pattern: the first
    occurrence is replaced, and the patterns [$$], [$&], [$`] and [$']
    of the replacement are expanded. *)
Fixpoint split_at_first (pat s : string) : option (string * string) :=
  if String.prefix pat s
  then Some (EmptyString,
             String.substring (String.length pat)
                              (String.length s - String.length pat) s)
  else match s with
       | EmptyString => None
       | String c s' =>
           match split_at_first pat s' with
           | Some (before, after) => Some (String c before, after)
           | None => None
           end
       end.

Fixpoint get_substitution (before matched after replacement : string)
  : string :=
  match replacement with
  | EmptyString => EmptyString
  | String c r =>
      match r with
      | String c' r' =>
          if Ascii.eqb c "$" then
            if Ascii.eqb c' "$" then
              String "$" (get_substitution before matched after r')
            else if Ascii.eqb c' "&" then
              matched ++ get_substitution before matched after r'
            else if Ascii.eqb c' "`" then
              before ++ get_substitution before matched after r'
            else if Ascii.eqb c' "'" then
              after ++ get_substitution before matched after r'
            else String c (get_substitution before matched after r)
          else String c (get_substitution before matched after r)
      | EmptyString => String c EmptyString
      end
  end.

Definition replace (pat replacement s : string) : string :=
  match split_at_first pat s with
  | None => s
  | Some (before, after) =>
      before ++ get_substitution before pat after replacement ++ after
  end.

(** The environment variables read by the LDAP login. *)
Record ProcessEnv : Type := mkProcessEnv {
  LDAP_URL : option string;
  LDAP_BIND_DN : option string;
  LDAP_BIND_PASSWORD : option string;
  LDAP_SEARCH_FILTER : option string;
  LDAP_SEARCH_BASE : option string
}.

(** [entry.object] of a search entry. *)
Record LdapEntry : Type := mkLdapEntry {
  dn : string;
  uid : option string;
  mail : option string;
  givenName : option string;
  sn : option string
}.

(** What a search does: its callback receives an error, or the result
    emits entries and then ['end'] or ['error']. *)
Inductive SearchOutcome : Type :=
| SearchCallbackError
| SearchEnd (entries : list LdapEntry)
| SearchErrorEvent (entries : list LdapEntry).

(** The directory behind [ldapjs]: whether a client can be created for a
    URL, whether a bind succeeds, and what a search yields. *)
Record Directory : Type := mkDirectory {
  createClient : option string -> bool;
  ldap_bind : option string -> option string -> bool;
  ldap_search : option string -> string -> SearchOutcome
}.

Module AuthService.

(** [ldapConfig.<key> || process.env.<VAR>] *)
Definition setting (ldapConfig : Json) (key : string) (var : option string)
  : option string :=
  let from_config :=
    match ldapConfig with
    | JObject fields =>
        match find (fun kv => String.eqb (fst kv) key) fields with
        | Some kv => Some (snd kv)
        | None => None
        end
    | _ => None
    end in
  match from_config with
  | Some v => if JsString.truthy v then Some v
              else var
  | None => var
  end.

Definition not_configured : Exn := JsError "LDAP authentication not configured".

(** [ldapConfig.url || process.env.LDAP_URL] *)
Definition url (penv : ProcessEnv) (ldapConfig : Json) : option string :=
  setting ldapConfig "url" (LDAP_URL penv).

(** "Bind with admin credentials": [true] when the callback gets no error. *)
Definition admin_bind (penv : ProcessEnv) (dir : Directory) (ldapConfig : Json)
  : bool :=
  ldap_bind dir (setting ldapConfig "bindDN" (LDAP_BIND_DN penv))
                (setting ldapConfig "bindPassword" (LDAP_BIND_PASSWORD penv)).

Definition searchFilter (penv : ProcessEnv) (ldapConfig : Json)
    (username : string) : string :=
  replace "{{username}}" username
    (match setting ldapConfig "searchFilter" (LDAP_SEARCH_FILTER penv) with
     | Some f => if JsString.truthy f then f else "(uid={{username}})"
     | None => "(uid={{username}})"
     end).

(** "Search for user" *)
Definition user_search (penv : ProcessEnv) (dir : Directory) (ldapConfig : Json)
    (username : string) : SearchOutcome :=
  ldap_search dir (setting ldapConfig "searchBase" (LDAP_SEARCH_BASE penv))
                  (searchFilter penv ldapConfig username).

(** [userEntry] when the result ends: the last entry received, if any. *)
Definition userEntry_of (entries : list LdapEntry) : option LdapEntry :=
  last (map Some entries) None.

(** "Try to bind with user credentials" *)
Definition user_bind (dir : Directory) (userEntry : LdapEntry)
    (password : string) : bool :=
  ldap_bind dir (Some (dn userEntry)) (Some password).

(** The record handed to [storage.createOrUpdateUser]. *)
Definition userData_of (username : string) (userEntry : LdapEntry)
  : Storage.UserData :=
  Storage.mkUserData
    (or_else JsString.truthy (uid userEntry) username)
    username
    (or_else JsString.truthy (mail userEntry) (username ++ "@company.com"))
    (str_or_empty (givenName userEntry))
    (str_or_empty (sn userEntry))
    "user" "ldap".

Definition authenticateLDAP (penv : ProcessEnv) (dir : Directory) (now : Z)
    (d : Db) (username password : string) : Db * result (option User.t) :=
  match Storage.getActiveAuthConfig d with
  | None => (d, Throw not_configured)
  | Some authConfig =>
      if negb (String.eqb (AuthConfig.authType authConfig) "ldap")
      then (d, Throw not_configured)
      else
        match AuthConfig.config authConfig with
        | JNull =>
            (d, Throw (JsError "TypeError: Cannot read properties of null"))
        | ldapConfig =>
            if negb (createClient dir (url penv ldapConfig))
            then (d, Throw (LdapError "createClient"))
            else
              (* client.bind(bindDN, bindPassword, (err) => ...) *)
              if negb (admin_bind penv dir ldapConfig)
              then (d, Throw (LdapError "bind"))          (* reject(err) *)
              else
                match user_search penv dir ldapConfig username with
                | SearchCallbackError =>
                    (d, Throw (LdapError "search"))       (* reject(err) *)
                | SearchErrorEvent _ =>
                    (d, Throw (LdapError "search result")) (* reject(err) *)
                | SearchEnd entries =>
                    match userEntry_of entries with
                    | None => (d, Ok None)                 (* resolve(null) *)
                    | Some userEntry =>
                        if negb (user_bind dir userEntry password)
                        then (d, Ok None)                  (* resolve(null) *)
                        else
                          match Storage.createOrUpdateUser d now
                                  (userData_of username userEntry) with
                          | Ok (d', user) => (d', Ok (Some user))
                          | Throw e => (d, Throw e)        (* reject(error) *)
                          end
                    end
                end
        end
  end.

End AuthService.

(* ================================================================== *)
(** ** The vocabulary of the specification *)

Module Spec.

(** The instant [t] lies in the half-open interval [[start, stop)]. *)
Definition within (t start stop : string) : Prop :=
  JsString.Les start t /\ JsString.Lts t stop.

(** Two half-open intervals overlap when they share an instant. *)
Definition overlaps (s1 e1 s2 e2 : string) : Prop :=
  exists t : string, within t s1 e1 /\ within t s2 e2.

(** The usual test for it: each interval starts before the other ends. *)
Definition overlapsb (s1 e1 s2 e2 : string) : bool :=
  JsString.lt s1 e2 && JsString.lt s2 e1.

(** A booking that can stand in the way of a request: same room, same
    date, confirmed, and not the excluded one. *)
Definition competes (roomId : Z) (date : string) (excludeBookingId : option Z)
    (b : Booking.t) : Prop :=
  Booking.roomId b = roomId /\ Booking.date b = date /\
  Booking.status b = "confirmed" /\ excludeBookingId <> Some (Booking.id b).

(** The test that makes the loop skip a row. *)
Definition skipped (excludeBookingId : option Z) (b : Booking.t) : bool :=
  truthy_opt truthy_number excludeBookingId &&
  match excludeBookingId with
  | Some x => Booking.id b =? x
  | None => false
  end.

(** The number of rooms of the table that hold a confirmed booking dated
    [today] whose interval contains [currentTime]. *)
Definition occupied_now (today currentTime : string) (d : Db) (r : Room.t)
  : bool :=
  existsb (fun b =>
    (Booking.roomId b =? Room.id r) &&
    String.eqb (Booking.date b) today &&
    String.eqb (Booking.status b) "confirmed" &&
    JsString.le (Booking.startTime b) currentTime &&
    JsString.lt currentTime (Booking.endTime b)) (bookings d).

(** [availableRooms] as the specification words it: the active rooms
    minus the rooms that are occupied now. *)
Definition availableRooms (today currentTime : string) (d : Db) : Z :=
  Z.of_nat (length (filter Room.isActive (rooms d))) -
  Z.of_nat (length (filter (occupied_now today currentTime d) (rooms d))).

(** Who may change a booking. *)
Definition may_mutate (w : World) (userId : string) (b : Booking.t) : Prop :=
  Booking.userId b = userId \/
  Routes.is_admin (Storage.getUser (db w) userId) = true.

(** What [deleteRoom] does to one row. *)
Definition soft_deleted (id : Z) (r r' : Room.t) : Prop :=
  Room.id r' = Room.id r /\ Room.name r' = Room.name r /\
  Room.floor r' = Room.floor r /\ Room.equipment r' = Room.equipment r /\
  Room.createdAt r' = Room.createdAt r /\
  Room.updatedAt r' = Room.updatedAt r /\
  (Room.id r <> id -> r' = r) /\
  (Room.id r = id -> Room.isActive r' = false).

(** What [setAuthConfig] does to a row that was there before. *)
Definition switched_off (c c' : AuthConfig.t) : Prop :=
  AuthConfig.id c' = AuthConfig.id c /\
  AuthConfig.authType c' = AuthConfig.authType c /\
  AuthConfig.config c' = AuthConfig.config c /\
  AuthConfig.isActive c' = false.

End Spec.

(** The booking keys come from the [serial] sequence, which starts at 1. *)
Definition serial_ids (d : Db) : Prop :=
  0 < bookings_id_seq d /\
  Forall (fun b => 0 < Booking.id b < bookings_id_seq d) (bookings d).

(* ================================================================== *)
(** ** Sample data *)

Module Sample.

Definition day : string := "2024-01-10".

Definition booking (id : Z) (userId : string) (roomId : Z)
    (startTime endTime status : string) : Booking.t :=
  Booking.mk id "Sync" None userId roomId day startTime endTime [] status 0 0.

Definition room (id : Z) (name : string) (isActive : bool) : Room.t :=
  Room.mk id name "1" [] isActive 0 0.

Definition request (roomId : Z) (startTime endTime : string) : BookingBody :=
  mkBookingBody (Present "Sync") Absent Absent (Present roomId) (Present day)
                (Present startTime) (Present endTime) Absent Absent false.

Definition only_status (status : string) : BookingBody :=
  mkBookingBody Absent Absent Absent Absent Absent Absent Absent Absent
                (Present status) false.

Definition only_times (startTime endTime : string) : BookingBody :=
  mkBookingBody Absent Absent Absent Absent Absent
                (Present startTime) (Present endTime) Absent Absent false.

(** A mail module that always succeeds, and a clock reading. *)
Definition quiet : Notifier :=
  mkNotifier (fun _ _ c => (c, Ok true)) (fun _ _ c => (c, Ok true)).

Definition env0 : Env := mkEnv 0 quiet.

(** A mail module whose first function throws. *)
Definition failing : Notifier :=
  mkNotifier (fun _ _ c => (c, Throw (JsError "socket hang up")))
             (fun _ _ c => (c, Ok true)).

(** A server with one user and one room, and a request that asks for
    invitations. *)
Definition staffed : World :=
  mkWorld
    (mkDb [User.mk "u1" (Some "ann") (Some "ann@company.com") None
                   (Some "Ann") (Some "Lee") None "user" "jwt" 0 0]
          [Room.mk 1 "Atlas" "1" [] true 0 0] [] [] 2 1 1)
    [].

Definition invitation : BookingBody :=
  mkBookingBody (Present "Sync") Absent Absent (Present 1) (Present day)
                (Present "09:00") (Present "10:00")
                (Present ["a@company.com"]) Absent true.

Definition start : World := mkWorld emptyDb [].

(** One confirmed booking, 09:00 to 10:00. *)
Definition morning_db : Db :=
  mkDb [] [] [booking 1 "u1" 1 "09:00" "10:00" "confirmed"] [] 1 2 1.

(** One confirmed booking of the last hour of the day, 23:00 to 00:00,
    as the booking form computes its end. *)
Definition late_db : Db :=
  mkDb [] [] [booking 1 "u1" 1 "23:00" "00:00" "confirmed"] [] 1 2 1.

(** 22:00 to 23:00, followed by 23:00 to 00:00, in the same room. *)
Definition evening_db : Db :=
  mkDb [] []
       [booking 1 "u1" 1 "22:00" "23:00" "confirmed";
        booking 2 "u2" 1 "23:00" "00:00" "confirmed"] [] 1 3 1.

(** Two active rooms; room 1 holds two confirmed bookings that both
    contain 10:30, room 2 is free. *)
Definition two_rooms : Db :=
  mkDb [] [room 1 "Atlas" true; room 2 "Boreas" true] [] [] 3 1 1.

Definition double_db : Db :=
  mkDb [] [room 1 "Atlas" true; room 2 "Boreas" true]
       [booking 1 "u1" 1 "09:00" "11:00" "confirmed";
        booking 2 "u2" 1 "10:00" "12:00" "confirmed"] [] 3 3 1.

(** Two active rooms, both free, and a confirmed booking for a room
    number that no row of [rooms] carries. *)
Definition phantom_db : Db :=
  mkDb [] [room 1 "Atlas" true; room 2 "Boreas" true]
       [booking 1 "u1" 999 "09:00" "11:00" "confirmed"] [] 3 2 1.

(** Two active rooms and one confirmed booking that contains 09:30. *)
Definition busy_db : Db :=
  mkDb [] [room 1 "Atlas" true; room 2 "Boreas" true]
       [booking 1 "u1" 1 "09:00" "10:00" "confirmed"] [] 3 2 1.

(** No active room, two confirmed bookings today. *)
Definition closed_db : Db :=
  mkDb [] [room 1 "Atlas" false]
       [booking 1 "u1" 1 "09:00" "10:00" "confirmed";
        booking 2 "u2" 1 "10:00" "11:00" "confirmed"] [] 2 3 1.

(** A database whose active configuration selects LDAP, and a directory
    that knows the service account and one person. *)
Definition ldap_db : Db :=
  mkDb [] [] []
       [AuthConfig.mk 1 "ldap" true
          (JObject [("url", "ldap://directory:389");
                    ("bindDN", "cn=admin,dc=company,dc=com");
                    ("bindPassword", "service-secret");
                    ("searchBase", "ou=users,dc=company,dc=com")]) 0 0]
       1 1 2.

Definition no_env : ProcessEnv := mkProcessEnv None None None None None.

Definition ann : LdapEntry :=
  mkLdapEntry "uid=ann,ou=users,dc=company,dc=com" (Some "ann")
              (Some "ann@company.com") (Some "Ann") (Some "Lee").

Definition directory : Directory :=
  mkDirectory
    (fun _ => true)
    (fun who pass =>
       match who, pass with
       | Some w, Some p =>
           (String.eqb w "cn=admin,dc=company,dc=com" &&
            String.eqb p "service-secret") ||
           (String.eqb w (dn ann) && String.eqb p "ann-secret")
       | _, _ => false
       end)
    (fun _ filter_ =>
       if String.eqb filter_ "(uid=ann)" then SearchEnd [ann]
       else SearchEnd []).

(** The same directory once the service account's password was changed
    on the server: every bind of the service account is refused. *)
Definition locked_out : Directory :=
  mkDirectory (fun _ => true) (fun _ _ => false) (ldap_search directory).

End Sample.

(* ================================================================== *)
(** ** server/storage.ts: the remaining operations *)

(** [ORDER BY] several columns: a stable insertion sort along a
    comparison of two rows. *)
Section OrderByRows.
Context {A : Type} (before : A -> A -> bool).

Fixpoint insert_row (x : A) (l : list A) : list A :=
  match l with
  | [] => [x]
  | y :: l' => if before x y then x :: l else y :: insert_row x l'
  end.

Definition orderBy_rows (l : list A) : list A :=
  fold_right (fun x acc => insert_row x acc) [] l.

End OrderByRows.

(** [Partial<InsertRoom>]. *)
Record PartialRoom : Type := mkPartialRoom {
  pr_name : option string;
  pr_floor : option string;
  pr_equipment : option (list string);
  pr_isActive : option bool
}.

Module StorageMore.

(** The object handed to [createUser] by the registration route and by
    [initializeDefaultAdmin]. *)
Record NewUser : Type := mkNewUser {
  nu_id : string;
  nu_username : string;
  nu_email : string;
  nu_password : string;
  nu_firstName : option string;
  nu_lastName : option string;
  nu_role : string;
  nu_authType : string
}.

(** The primary key and the two [unique] columns of [users]. *)
Definition duplicate_user (us : list User.t) (u : NewUser) : bool :=
  existsb (fun r =>
    String.eqb (User.id r) (nu_id u) ||
    (match User.username r with
     | Some n => String.eqb n (nu_username u) | None => false end) ||
    (match User.email r with
     | Some m => String.eqb m (nu_email u) | None => false end)) us.

Definition createUser (d : Db) (now : Z) (u : NewUser)
  : result (Db * User.t) :=
  if duplicate_user (users d) u then
    Throw (DbError "duplicate key value violates unique constraint")
  else
    let row := User.mk (nu_id u) (Some (nu_username u)) (Some (nu_email u))
                       (Some (nu_password u)) (nu_firstName u) (nu_lastName u)
                       None (nu_role u) (nu_authType u) now now in
    Ok (with_users d (users d ++ [row])%list, row).

(** [set({ ...room, updatedAt: new Date() })] on one row. *)
Definition room_set (now : Z) (p : PartialRoom) (r : Room.t) : Room.t :=
  Room.mk (Room.id r)
    (Storage.upd (pr_name p) (Room.name r))
    (Storage.upd (pr_floor p) (Room.floor r))
    (Storage.upd (pr_equipment p) (Room.equipment r))
    (Storage.upd (pr_isActive p) (Room.isActive r))
    (Room.createdAt r) now.

Definition updateRoom (d : Db) (now : Z) (id : Z) (room : PartialRoom)
  : Db * option Room.t :=
  let rs := map (fun r => if Room.id r =? id then room_set now room r else r)
                (rooms d) in
  (with_rooms d rs (rooms_id_seq d), find (fun r => Room.id r =? id) rs).

(** The two left joins of the booking queries. *)
Definition with_details (d : Db) (b : Booking.t) : BookingWithDetails :=
  mkBookingWithDetails b
    (find (fun u => String.eqb (User.id u) (Booking.userId b)) (users d))
    (find (fun r => Room.id r =? Booking.roomId b) (rooms d)).

(** [orderBy(desc(bookings.date), asc(bookings.startTime))] *)
Definition date_desc_start_asc (a b : Booking.t) : bool :=
  JsString.gt (Booking.date a) (Booking.date b) ||
  (String.eqb (Booking.date a) (Booking.date b) &&
   JsString.le (Booking.startTime a) (Booking.startTime b)).

(** [orderBy(asc(bookings.date), asc(bookings.startTime))] *)
Definition date_asc_start_asc (a b : Booking.t) : bool :=
  JsString.lt (Booking.date a) (Booking.date b) ||
  (String.eqb (Booking.date a) (Booking.date b) &&
   JsString.le (Booking.startTime a) (Booking.startTime b)).

Definition getAllBookings (d : Db) : list BookingWithDetails :=
  map (with_details d) (orderBy_rows date_desc_start_asc (bookings d)).

Definition getUserBookings (d : Db) (userId : string)
  : list BookingWithDetails :=
  map (with_details d)
      (orderBy_rows date_desc_start_asc
         (filter (fun b => String.eqb (Booking.userId b) userId) (bookings d))).

Definition getRoomBookings (d : Db) (roomId : Z) (date : option string)
  : list BookingWithDetails :=
  let conditions : list (Booking.t -> bool) :=
    [ fun b => Booking.roomId b =? roomId ] in
  let conditions :=
    match date with
    | Some day =>
        if JsString.truthy day
        then (conditions ++ [ fun b => String.eqb (Booking.date b) day ])%list
        else conditions
    | None => conditions
    end in
  map (with_details d)
      (orderBy_rows date_asc_start_asc
         (filter (fun b => forallb (fun c => c b) conditions) (bookings d))).

End StorageMore.

(* ================================================================== *)
(** ** Invariants of the bookings table *)

Module Inv.




(** A body that names a status and nothing else. *)
Definition status_only (req : BookingBody) : Prop :=
  rb_title req = Absent /\ rb_description req = Absent /\
  rb_userId req = Absent /\ rb_roomId req = Absent /\
  rb_date req = Absent /\ rb_startTime req = Absent /\
  rb_endTime req = Absent /\ rb_attendees req = Absent.

End Inv.

(* ================================================================== *)
(** ** More sample data *)

Module Sample2.

(** The LDAP database of the samples with one local account that was
    registered under the name ["ann"]. *)
Definition mixed_db : Db :=
  with_users Sample.ldap_db
    [User.mk "user-1700000000000" (Some "ann") (Some "ann@example.org")
             (Some "$2a$12$hash") None None None "user" "jwt" 0 0].

End Sample2.


(* ================================================================== *)
(** ** [registerRoutes]: the room handlers and the booking lists *)

(** What the other handlers put into [res.json]. *)
Inductive Payload : Type :=
| RoomPayload (room : Room.t)
| RoomsPayload (rooms : list Room.t)
| BookingsPayload (bookings : list BookingWithDetails)
| MessagePayload (message : string)
| ErrorsPayload (message : string) (errors : string)
| SessionPayload (id : string) (username email firstName lastName : option string)
                 (role : string) (token : string)
| AuthConfigPayload (authType : string) (isActive : bool) (config : Json)
| MethodsPayload (current : string) (available : list string)
| UndefinedPayload
| EmptyPayload.

Record Reply : Type := mkReply {
  code : Z;
  payload : Payload
}.

(** The JSON body of [POST /api/rooms] and [PUT /api/rooms/:id]. *)
Record RoomBody : Type := mkRoomBody {
  qb_name : Field string;
  qb_floor : Field string;
  qb_equipment : Field (list string);
  qb_isActive : Field bool
}.

Module RoomRoutes.

(** [insertRoomSchema.parse]. *)
Definition insertRoomSchema_parse (b : RoomBody) : result InsertRoom :=
  let* name := Zod.required "name" (qb_name b) in
  let* floor := Zod.required "floor" (qb_floor b) in
  let* equipment := Zod.optional "equipment" (qb_equipment b) in
  let* isActive := Zod.optional "isActive" (qb_isActive b) in
  Ok (mkInsertRoom name floor equipment isActive).

(** [insertRoomSchema.partial().parse]. *)
Definition insertRoomSchema_partial_parse (b : RoomBody) : result PartialRoom :=
  let* name := Zod.optional "name" (qb_name b) in
  let* floor := Zod.optional "floor" (qb_floor b) in
  let* equipment := Zod.optional "equipment" (qb_equipment b) in
  let* isActive := Zod.optional "isActive" (qb_isActive b) in
  Ok (mkPartialRoom name floor equipment isActive).

Definition admin_required : Reply :=
  mkReply 403 (MessagePayload "Admin access required").

(** [app.get("/api/rooms", ...)] *)
Definition get_rooms (w : World) : World * Reply :=
  (w, mkReply 200 (RoomsPayload (Storage.getActiveRooms (db w)))).

(** [app.get("/api/rooms/:id", ...)] *)
Definition get_room (w : World) (roomId : Z) : World * Reply :=
  match Storage.getRoom (db w) roomId with
  | None => (w, mkReply 404 (MessagePayload "Room not found"))
  | Some room => (w, mkReply 200 (RoomPayload room))
  end.

(** [app.post("/api/rooms", ...)] *)
Definition post_rooms (env : Env) (w : World) (userId : string)
    (req : RoomBody) : World * Reply :=
  let user := Storage.getUser (db w) userId in
  if negb (Routes.is_admin user) then (w, admin_required)
  else
    match insertRoomSchema_parse req with
    | Throw (ZodError errors) =>
        (w, mkReply 400 (ErrorsPayload "Invalid room data" errors))
    | Throw _ =>
        (Routes.log w "Error creating room:",
         mkReply 500 (MessagePayload "Failed to create room"))
    | Ok validatedRoom =>
        let (d1, room) := Storage.createRoom (db w) (now env) validatedRoom in
        (mkWorld d1 (console w), mkReply 201 (RoomPayload room))
    end.

(** [app.put("/api/rooms/:id", ...)] *)
Definition put_room (env : Env) (w : World) (userId : string) (roomId : Z)
    (req : RoomBody) : World * Reply :=
  let user := Storage.getUser (db w) userId in
  if negb (Routes.is_admin user) then (w, admin_required)
  else
    match insertRoomSchema_partial_parse req with
    | Throw (ZodError errors) =>
        (w, mkReply 400 (ErrorsPayload "Invalid room data" errors))
    | Throw _ =>
        (Routes.log w "Error updating room:",
         mkReply 500 (MessagePayload "Failed to update room"))
    | Ok validatedRoom =>
        let (d1, room) :=
          StorageMore.updateRoom (db w) (now env) roomId validatedRoom in
        (mkWorld d1 (console w),
         mkReply 200 (match room with
                      | Some r => RoomPayload r
                      | None => UndefinedPayload
                      end))
    end.

(** [app.delete("/api/rooms/:id", ...)] *)
Definition delete_room (w : World) (userId : string) (roomId : Z)
  : World * Reply :=
  let user := Storage.getUser (db w) userId in
  if negb (Routes.is_admin user) then (w, admin_required)
  else
    (mkWorld (Storage.deleteRoom (db w) roomId) (console w),
     mkReply 204 EmptyPayload).

(** [app.get("/api/bookings", ...)] *)
Definition get_bookings (w : World) (userId : string) : World * Reply :=
  let user := Storage.getUser (db w) userId in
  let bookings :=
    if Routes.is_admin user
    then StorageMore.getAllBookings (db w)
    else StorageMore.getUserBookings (db w) userId in
  (w, mkReply 200 (BookingsPayload bookings)).

(** [app.get("/api/bookings/my", ...)] *)
Definition get_my_bookings (w : World) (userId : string) : World * Reply :=
  (w, mkReply 200
        (BookingsPayload (StorageMore.getUserBookings (db w) userId))).

(** [app.get("/api/bookings/room/:roomId", ...)]; [date] is
    [req.query.date]. *)
Definition get_room_bookings (w : World) (roomId : Z) (date : option string)
  : World * Reply :=
  (w, mkReply 200
        (BookingsPayload (StorageMore.getRoomBookings (db w) roomId date))).

End RoomRoutes.

(* ================================================================== *)
(** ** [AuthService] and its middleware *)

(** [bcryptjs] and [jsonwebtoken] as the service uses them: hashing and
    comparing a password, signing the claims [id], [email], [role], and
    verifying a token, which yields the [id] claim or throws ([None]). *)
Record Crypto : Type := mkCrypto {
  bcrypt_hash : string -> string;
  bcrypt_compare : string -> string -> bool;
  jwt_sign : string -> option string -> string -> string;
  jwt_verify : string -> option string
}.

(** What the middleware reads of a request: [req.isAuthenticated()],
    [req.user] and the [Authorization] header. *)
Record AuthRequest : Type := mkAuthRequest {
  session_authenticated : bool;
  req_user : option User.t;
  authorization : option string
}.

(** A middleware calls [next()], possibly after setting [req.user], or
    answers. *)
Inductive Gate : Type :=
| Next (req : AuthRequest)
| Halt (reply : Reply).

Module Auth.

Definition generateJWT (crypto : Crypto) (user : User.t) : string :=
  jwt_sign crypto (User.id user) (User.email user) (User.role user).

Definition verifyJWT (crypto : Crypto) (d : Db) (token : string)
  : option User.t :=
  match jwt_verify crypto token with
  | Some id => Storage.getUser d id
  | None => None
  end.

Definition unauthorized : Reply := mkReply 401 (MessagePayload "Unauthorized").

(** The token of a header that starts with ["Bearer "]. *)
Definition bearer_token (authHeader : option string) : option string :=
  match authHeader with
  | Some h =>
      if JsString.truthy h && String.prefix "Bearer " h
      then Some (String.substring 7 (String.length h - 7) h)
      else None
  | None => None
  end.

Definition isAuthenticated (crypto : Crypto) (d : Db) (req : AuthRequest)
  : Gate :=
  if session_authenticated req ||
     match req_user req with Some _ => true | None => false end
  then Next req
  else
    match bearer_token (authorization req) with
    | Some token =>
        match verifyJWT crypto d token with
        | Some user =>
            Next (mkAuthRequest (session_authenticated req) (Some user)
                                (authorization req))
        | None => Halt unauthorized
        end
    | None => Halt unauthorized
    end.

Definition isAdmin (req : AuthRequest) : Gate :=
  match req_user req with
  | Some user =>
      if String.eqb (User.role user) "admin"
      then Next req
      else Halt RoomRoutes.admin_required
  | None => Halt RoomRoutes.admin_required
  end.

(** The variables read by [initializeDefaultAdmin]. *)
Record AdminEnv : Type := mkAdminEnv {
  DEFAULT_ADMIN_USERNAME : option string;
  DEFAULT_ADMIN_PASSWORD : option string;
  DEFAULT_ADMIN_EMAIL : option string
}.

Definition initializeDefaultAdmin (aenv : AdminEnv) (crypto : Crypto)
    (clock : Z) (w : World) : World :=
  let adminUsername :=
    or_else JsString.truthy (DEFAULT_ADMIN_USERNAME aenv) "admin" in
  let adminPassword :=
    or_else JsString.truthy (DEFAULT_ADMIN_PASSWORD aenv) "Admin@123456" in
  let adminEmail :=
    or_else JsString.truthy (DEFAULT_ADMIN_EMAIL aenv) "admin@company.com" in
  match Storage.getUserByUsername (db w) adminUsername with
  | Some _ => w
  | None =>
      let hashedPassword := bcrypt_hash crypto adminPassword in
      match StorageMore.createUser (db w) clock
              (StorageMore.mkNewUser "admin-default" adminUsername adminEmail
                 hashedPassword (Some "System") (Some "Administrator")
                 "admin" "jwt") with
      | Ok (d1, _) =>
          mkWorld d1 (console w ++ ["Default admin user created"])%list
      | Throw _ =>
          Routes.log w "Failed to initialize default admin:"
      end
  end.

End Auth.

(* ================================================================== *)
(** ** server/authRoutes.ts *)

Record LoginBody : Type := mkLoginBody {
  lb_username : Field string;
  lb_password : Field string
}.

Record RegisterBody : Type := mkRegisterBody {
  gb_username : Field string;
  gb_email : Field string;
  gb_password : Field string;
  gb_firstName : Field string;
  gb_lastName : Field string
}.

Record ConfigBody : Type := mkConfigBody {
  cb_authType : Field string;
  cb_config : Field Json
}.

(** Everything the auth routes depend on besides the database. *)
Record AuthEnv : Type := mkAuthEnv {
  ae_process : ProcessEnv;
  ae_directory : Directory;
  ae_crypto : Crypto;
  ae_is_email : string -> bool;      (* the test of [z.string().email()] *)
  ae_now : Z;
  ae_session_ok : bool               (* [req.login] passes no error *)
}.

Module AuthRoutes.

(** [z.string().min(n, ...)] *)
Definition string_min (n : nat) (path : string) (f : Field string)
  : result string :=
  match f with
  | Present s => if Nat.leb n (String.length s) then Ok s
                 else Throw (ZodError path)
  | _ => Throw (ZodError path)
  end.

Definition loginSchema_parse (b : LoginBody) : result (string * string) :=
  let* username := string_min 1 "username" (lb_username b) in
  let* password := string_min 1 "password" (lb_password b) in
  Ok (username, password).

Record Registration : Type := mkRegistration {
  rg_username : string;
  rg_email : string;
  rg_password : string;
  rg_firstName : option string;
  rg_lastName : option string
}.

Definition registerSchema_parse (is_email : string -> bool) (b : RegisterBody)
  : result Registration :=
  let* username := string_min 3 "username" (gb_username b) in
  let* email :=
    match gb_email b with
    | Present s => if is_email s then Ok s else Throw (ZodError "email")
    | _ => Throw (ZodError "email")
    end in
  let* password := string_min 6 "password" (gb_password b) in
  let* firstName := Zod.optional "firstName" (gb_firstName b) in
  let* lastName := Zod.optional "lastName" (gb_lastName b) in
  Ok (mkRegistration username email password firstName lastName).

(** [authConfigSchema.parse]: the type is one of three names; the
    configuration is optional and an object, of which no key is kept
    ([z.object({})]). *)
Definition authConfigSchema_parse (b : ConfigBody)
  : result (string * option Json) :=
  let* authType :=
    match cb_authType b with
    | Present s =>
        if String.eqb s "jwt" || String.eqb s "ldap" || String.eqb s "oidc"
        then Ok s else Throw (ZodError "authType")
    | _ => Throw (ZodError "authType")
    end in
  let* config :=
    match cb_config b with
    | Absent => Ok None
    | Present (JObject _) => Ok (Some (JObject []))
    | _ => Throw (ZodError "config")
    end in
  Ok (authType, config).

(** [authConfig?.authType || "jwt"] *)
Definition current_authType (d : Db) : string :=
  match Storage.getActiveAuthConfig d with
  | Some c => if JsString.truthy (AuthConfig.authType c)
              then AuthConfig.authType c else "jwt"
  | None => "jwt"
  end.

Definition session_of (user : User.t) (token : string) : Payload :=
  SessionPayload (User.id user) (User.username user) (User.email user)
                 (User.firstName user) (User.lastName user) (User.role user)
                 token.

Definition invalid_credentials : Reply :=
  mkReply 401 (MessagePayload "Invalid credentials").

(** [app.post("/api/auth/login", ...)] *)
Definition login (ae : AuthEnv) (d : Db) (body : LoginBody) : Db * Reply :=
  match loginSchema_parse body with
  | Throw (ZodError errors) =>
      (d, mkReply 400 (ErrorsPayload "Invalid input" errors))
  | Throw _ => (d, mkReply 500 (MessagePayload "Login failed"))
  | Ok (username, password) =>
      let attempt : Db * result (option User.t) :=
        if String.eqb (current_authType d) "ldap" then
          AuthService.authenticateLDAP (ae_process ae) (ae_directory ae)
            (ae_now ae) d username password
        else
          (* JWT authentication *)
          match Storage.getUserByUsername d username with
          | None => (d, Ok None)
          | Some foundUser =>
              match User.password foundUser with
              | None => (d, Ok None)
              | Some hash =>
                  if negb (JsString.truthy hash) then (d, Ok None)
                  else if bcrypt_compare (ae_crypto ae) password hash
                  then (d, Ok (Some foundUser))
                  else (d, Ok None)
              end
          end in
      match attempt with
      | (d1, Throw _) => (d1, mkReply 500 (MessagePayload "Login failed"))
      | (d1, Ok None) => (d1, invalid_credentials)
      | (d1, Ok (Some user)) =>
          (* Generate JWT token *)
          let token := Auth.generateJWT (ae_crypto ae) user in
          (* Set session *)
          if ae_session_ok ae
          then (d1, mkReply 200 (session_of user token))
          else (d1, mkReply 500 (MessagePayload "Login failed"))
      end
  end.

(** [`user-${Date.now()}`] *)
Definition new_user_id (clock : Z) : string :=
  "user-" ++ NilZero.string_of_int (Z.to_int clock).

(** [app.post("/api/auth/register", ...)] *)
Definition register (ae : AuthEnv) (d : Db) (body : RegisterBody)
  : Db * Reply :=
  if negb (String.eqb (current_authType d) "jwt") then
    (d, mkReply 400
          (MessagePayload
             "Registration is only available for JWT authentication"))
  else
    match registerSchema_parse (ae_is_email ae) body with
    | Throw (ZodError errors) =>
        (d, mkReply 400 (ErrorsPayload "Invalid input" errors))
    | Throw _ => (d, mkReply 500 (MessagePayload "Registration failed"))
    | Ok userData =>
        (* Check if user already exists *)
        match Storage.getUserByUsername d (rg_username userData) with
        | Some _ => (d, mkReply 409 (MessagePayload "Username already exists"))
        | None =>
            (* Hash password and create user *)
            let hashedPassword :=
              bcrypt_hash (ae_crypto ae) (rg_password userData) in
            match StorageMore.createUser d (ae_now ae)
                    (StorageMore.mkNewUser (new_user_id (ae_now ae))
                       (rg_username userData) (rg_email userData)
                       hashedPassword
                       (match rg_firstName userData with
                        | Some f => if JsString.truthy f then Some f else None
                        | None => None end)
                       (match rg_lastName userData with
                        | Some l => if JsString.truthy l then Some l else None
                        | None => None end)
                       "user" "jwt") with
            | Throw _ =>
                (d, mkReply 500 (MessagePayload "Registration failed"))
            | Ok (d1, user) =>
                let token := Auth.generateJWT (ae_crypto ae) user in
                (d1, mkReply 201 (session_of user token))
            end
        end
    end.

(** The two middlewares in front of the configuration routes. *)
Definition admin_gate (ae : AuthEnv) (d : Db) (req : AuthRequest) : Gate :=
  match Auth.isAuthenticated (ae_crypto ae) d req with
  | Next req' => Auth.isAdmin req'
  | Halt reply => Halt reply
  end.

(** [app.get("/api/auth/config", isAuthenticated, isAdmin, ...)] *)
Definition get_auth_config (ae : AuthEnv) (d : Db) (req : AuthRequest)
  : Db * Reply :=
  match admin_gate ae d req with
  | Halt reply => (d, reply)
  | Next _ =>
      match Storage.getActiveAuthConfig d with
      | Some c =>
          (d, mkReply 200 (AuthConfigPayload (AuthConfig.authType c)
                             (AuthConfig.isActive c) (AuthConfig.config c)))
      | None => (d, mkReply 200 (AuthConfigPayload "jwt" true JNull))
      end
  end.

(** [app.post("/api/auth/config", isAuthenticated, isAdmin, ...)]; a
    configuration that is [undefined] is stored as [NULL]. *)
Definition post_auth_config (ae : AuthEnv) (d : Db) (req : AuthRequest)
    (body : ConfigBody) : Db * Reply :=
  match admin_gate ae d req with
  | Halt reply => (d, reply)
  | Next _ =>
      match authConfigSchema_parse body with
      | Throw (ZodError errors) =>
          (d, mkReply 400 (ErrorsPayload "Invalid input" errors))
      | Throw _ =>
          (d, mkReply 500 (MessagePayload "Failed to update auth configuration"))
      | Ok (authType, config) =>
          (Storage.setAuthConfig d (ae_now ae) authType
             (match config with Some c => c | None => JNull end),
           mkReply 200 (MessagePayload "Authentication configuration updated"))
      end
  end.

(** [app.get("/api/auth/methods", ...)] *)
Definition get_auth_methods (d : Db) : Db * Reply :=
  (d, mkReply 200 (MethodsPayload (current_authType d) ["jwt"; "ldap"; "oidc"])).

End AuthRoutes.

(* ================================================================== *)
(** ** Sample data for the auth routes *)

Module Sample3.

(** A stand-in for the two libraries: the "hash" wraps the password, a
    token is the key behind a prefix. *)
Definition crypto : Crypto :=
  mkCrypto (fun password => "H(" ++ password ++ ")")
           (fun password hash => String.eqb hash ("H(" ++ password ++ ")"))
           (fun id _ _ => "token:" ++ id)
           (fun token =>
              if String.prefix "token:" token
              then Some (String.substring 6 (String.length token - 6) token)
              else None).

Definition auth_env : AuthEnv :=
  mkAuthEnv Sample.no_env Sample.directory crypto
            (fun s => match String.index 0 "@" s with
                      | Some _ => true | None => false end)
            1700000000000 true.

(** The same with a directory that refuses the service account. *)
Definition auth_env_locked : AuthEnv :=
  mkAuthEnv Sample.no_env Sample.locked_out crypto
            (ae_is_email auth_env) 1700000000000 true.

(** One admin and one user, password mode. *)
Definition local_db : Db :=
  mkDb [User.mk "admin-default" (Some "admin") (Some "admin@company.com")
                (Some "H(Admin@123456)") (Some "System") (Some "Administrator")
                None "admin" "jwt" 0 0;
        User.mk "user-1" (Some "bob") (Some "bob@company.com")
                (Some "H(bob-secret)") None None None "user" "jwt" 0 0]
       [] [] [] 1 1 1.

Definition ann_registration : RegisterBody :=
  mkRegisterBody (Present "ann") (Present "ann@company.com")
                 (Present "ann-secret") (Present "Ann") Absent.

Definition bearer (token : string) : AuthRequest :=
  mkAuthRequest false None (Some ("Bearer " ++ token)).

End Sample3.

(* ================================================================== *)
(** ** The booking form of the client: end time and duration *)

Module BookingForm.

(** [n.toString()] of an integer. *)
Definition toString (n : Z) : string := NilZero.string_of_int (Z.to_int n).

(** [s.padStart(2, '0')] *)
Definition padStart2 (s : string) : string :=
  match s with
  | EmptyString => "00"
  | String c EmptyString => String "0" s
  | _ => s
  end.

(** The value of a time input for [hours] and [minutes]. *)
Definition time_string (hours minutes : Z) : string :=
  padStart2 (toString hours) ++ ":" ++ padStart2 (toString minutes).

(** "Auto-calculate end time when start time or duration changes";
    [hours] and [minutes] are [startTime.split(':').map(Number)].
    [Math.floor] of the quotient is [/], the operator [%] is [Z.rem]. *)
Definition endHours (hours minutes duration : Z) : Z :=
  Z.rem ((hours * 60 + minutes + duration) / 60) 24.

Definition endMins (hours minutes duration : Z) : Z :=
  Z.rem (hours * 60 + minutes + duration) 60.

Definition endTime (hours minutes duration : Z) : string :=
  let startMinutes := hours * 60 + minutes in
  let endMinutes := startMinutes + duration in
  let endHours := Z.rem (endMinutes / 60) 24 in
  let endMins := Z.rem endMinutes 60 in
  padStart2 (toString endHours) ++ ":" ++ padStart2 (toString endMins).

(** "Calculate duration from start and end times", when a booking is
    opened for editing. *)
Definition duration_of (startHours startMinutes endHours endMinutes : Z) : Z :=
  let startTotalMinutes := startHours * 60 + startMinutes in
  let endTotalMinutes := endHours * 60 + endMinutes in
  endTotalMinutes - startTotalMinutes.

(** [n.toString().padStart(2, '0')] *)
Definition two (n : Z) : string := padStart2 (toString n).

(** The numbers below [n], for exhaustive checks. *)
Definition below (n : nat) : list Z := map Z.of_nat (seq 0 n).

Definition same_comparison (a b : comparison) : bool :=
  match a, b with
  | Eq, Eq | Lt, Lt | Gt, Gt => true
  | _, _ => false
  end.

End BookingForm.

(* ================================================================== *)
(** * Properties *)

(** ** The order on strings *)

Module JsStringFacts.
Import JsString.

Lemma compare_agree (a b : string) :
  String.compare a b = String_as_OT.compare a b.
Proof.
  revert b; induction a as [|c a IH]; intros [|d b]; reflexivity.
Qed.

Lemma Lts_irrefl (a : string) : ~ Lts a a.
Proof. exact (StrictOrder_Irreflexive a). Qed.

Lemma Lts_trans (a b c : string) : Lts a b -> Lts b c -> Lts a c.
Proof. exact (StrictOrder_Transitive a b c). Qed.

Lemma Lts_total (a b : string) : Lts a b \/ a = b \/ Lts b a.
Proof.
  destruct (String_as_OT.compare_spec a b) as [E|L|G]; auto.
Qed.

Lemma Les_cases (a b : string) : Les a b <-> Lts a b \/ a = b.
Proof.
  unfold Les; split.
  - intros H. destruct (Lts_total a b) as [L|[E|G]]; auto. contradiction.
  - intros [L|E] G.
    + exact (Lts_irrefl a (Lts_trans _ _ _ L G)).
    + subst. exact (Lts_irrefl b G).
Qed.

Lemma Les_refl (a : string) : Les a a.
Proof. apply Lts_irrefl. Qed.

Lemma Lts_Les (a b : string) : Lts a b -> Les a b.
Proof. intros H; apply Les_cases; auto. Qed.

Lemma Les_Lts_trans (a b c : string) : Les a b -> Lts b c -> Lts a c.
Proof.
  intros H L. apply Les_cases in H as [H|H]; subst; eauto using Lts_trans.
Qed.

Lemma Lts_Les_trans (a b c : string) : Lts a b -> Les b c -> Lts a c.
Proof.
  intros L H. apply Les_cases in H as [H|H]; subst; eauto using Lts_trans.
Qed.

Lemma Les_trans (a b c : string) : Les a b -> Les b c -> Les a c.
Proof.
  intros H1 H2. apply Les_cases in H1 as [H1|H1]; subst; auto.
  apply Lts_Les. eapply Lts_Les_trans; eauto.
Qed.

Lemma Les_or_Lts (a b : string) : Les a b \/ Lts b a.
Proof.
  destruct (Lts_total a b) as [L|[E|G]]; auto.
  - left. apply Lts_Les; assumption.
  - left. subst. apply Les_refl.
Qed.

Lemma lt_iff (a b : string) : lt a b = true <-> Lts a b.
Proof.
  unfold lt, String.ltb, Lts, String_as_OT.lt.
  rewrite compare_agree.
  destruct (String_as_OT.compare a b); split; congruence.
Qed.

Lemma le_iff (a b : string) : le a b = true <-> Les a b.
Proof.
  rewrite Les_cases. unfold le, String.leb.
  rewrite compare_agree.
  destruct (String_as_OT.compare_spec a b) as [E|L|G].
  - split; auto.
  - split; [intros _; left; exact L | reflexivity].
  - split; [discriminate|].
    intros [L|E]; exfalso.
    + exact (Lts_irrefl a (Lts_trans _ _ _ L G)).
    + subst. exact (Lts_irrefl b G).
Qed.

Lemma gt_iff (a b : string) : gt a b = true <-> Lts b a.
Proof. apply lt_iff. Qed.

Lemma ge_iff (a b : string) : ge a b = true <-> Les b a.
Proof. apply le_iff. Qed.

End JsStringFacts.

(** ** The conflict test against half-open overlap *)

Module OverlapFacts.
Import JsString JsStringFacts.

Lemma times_conflict_cases (s e bs be : string) :
  Storage.times_conflict s e bs be = true <->
  (Les bs s /\ Lts s be) \/ (Lts bs e /\ Les e be) \/ (Les s bs /\ Les be e).
Proof.
  unfold Storage.times_conflict.
  rewrite !orb_true_iff, !andb_true_iff.
  rewrite !ge_iff, !gt_iff, !lt_iff, !le_iff. tauto.
Qed.

Lemma overlapsb_iff (s e bs be : string) :
  Spec.overlapsb s e bs be = true <-> Lts s be /\ Lts bs e.
Proof.
  unfold Spec.overlapsb. rewrite andb_true_iff, !lt_iff. tauto.
Qed.

(** Two proper intervals share an instant exactly when each starts
    before the other ends. *)
Lemma overlaps_proper (s e bs be : string) :
  Lts s e -> Lts bs be ->
  (Spec.overlaps s e bs be <-> Lts s be /\ Lts bs e).
Proof.
  intros Hse Hb. unfold Spec.overlaps, Spec.within. split.
  - intros [t [[H1 H2] [H3 H4]]]. split.
    + eapply Les_Lts_trans; eauto.
    + eapply Les_Lts_trans; eauto.
  - intros [H1 H2]. destruct (Les_or_Lts bs s) as [L|L].
    + exists s. repeat split; auto using Les_refl.
    + exists bs. repeat split; auto using Les_refl, Lts_Les.
Qed.

(** An interval that is empty or inverted shares no instant with any. *)
Lemma overlaps_improper_r (s e bs be : string) :
  Les be bs -> ~ Spec.overlaps s e bs be.
Proof.
  intros H [t [_ [H3 H4]]]. apply H. eapply Les_Lts_trans; eauto.
Qed.

Lemma overlaps_improper_l (s e bs be : string) :
  Les e s -> ~ Spec.overlaps s e bs be.
Proof.
  intros H [t [[H1 H2] _]]. apply H. eapply Les_Lts_trans; eauto.
Qed.

(** On proper intervals the three comparisons of the loop are the
    half-open overlap. *)
Lemma times_conflict_proper (s e bs be : string) :
  Lts s e -> Lts bs be ->
  (Storage.times_conflict s e bs be = true <-> Spec.overlaps s e bs be).
Proof.
  intros Hse Hb.
  rewrite times_conflict_cases, (overlaps_proper _ _ _ _ Hse Hb).
  split.
  - intros [[H1 H2]|[[H1 H2]|[H1 H2]]]; split; auto.
    + eapply Les_Lts_trans; eauto.
    + eapply Lts_Les_trans; eauto.
    + eapply Les_Lts_trans; eauto.
    + eapply Lts_Les_trans; eauto.
  - intros [H1 H2].
    destruct (Les_or_Lts bs s) as [L|L]; [left; auto|].
    destruct (Les_or_Lts e be) as [L'|L']; [right; left; auto|].
    right; right. split; apply Lts_Les; assumption.
Qed.

End OverlapFacts.

(** ** [checkRoomAvailability] *)

Module AvailabilityFacts.
Import JsString JsStringFacts OverlapFacts.

Lemma skipped_true_iff (ex : option Z) (b : Booking.t) :
  Spec.skipped ex b = true <-> ex = Some (Booking.id b) /\ Booking.id b <> 0.
Proof.
  unfold Spec.skipped, truthy_opt, truthy_number. destruct ex as [x|]; simpl.
  - rewrite andb_true_iff, negb_true_iff, Z.eqb_neq, Z.eqb_eq. split.
    + intros [H1 H2]. subst. auto.
    + intros [H1 H2]. inversion H1; subst. auto.
  - split; [discriminate | intros [H _]; discriminate].
Qed.

(** The loop answers [false] exactly when a row it does not skip passes
    the conflict test. *)
Lemma scan_conflicts_false (s e : string) (ex : option Z) (l : list Booking.t) :
  Storage.scan_conflicts s e ex l = false <->
  exists b, In b l /\ Spec.skipped ex b = false /\
            Storage.times_conflict s e (Booking.startTime b)
                                       (Booking.endTime b) = true.
Proof.
  induction l as [|b l IH]; simpl.
  - split; [discriminate | intros [b [[] _]]].
  - fold (Spec.skipped ex b).
    destruct (Spec.skipped ex b) eqn:Hs.
    + rewrite IH. split.
      * intros [b' [Hin H]]. exists b'. auto.
      * intros [b' [[->|Hin] [H1 H2]]]; [congruence|]. exists b'. auto.
    + destruct (Storage.times_conflict s e (Booking.startTime b)
                  (Booking.endTime b)) eqn:Ht.
      * split; [intros _; exists b; auto | reflexivity].
      * rewrite IH. split.
        -- intros [b' [Hin H]]. exists b'. auto.
        -- intros [b' [[->|Hin] [H1 H2]]]; [congruence|]. exists b'. auto.
Qed.

(** The rows the query selects, whichever branch builds the condition. *)
Lemma selected_rows (d : Db) (roomId : Z) (date s e : string) (ex : option Z) :
  Storage.checkRoomAvailability d roomId date s e ex =
  Storage.scan_conflicts s e ex
    (filter (fun b => (Booking.roomId b =? roomId) &&
                      (String.eqb (Booking.date b) date &&
                       (String.eqb (Booking.status b) "confirmed" && true)))
            (bookings d)).
Proof.
  unfold Storage.checkRoomAvailability.
  destruct (truthy_opt truthy_number ex); reflexivity.
Qed.

(** [checkRoomAvailability] in one sentence. *)
Lemma checkRoomAvailability_false (d : Db) (roomId : Z) (date s e : string)
    (ex : option Z) :
  Storage.checkRoomAvailability d roomId date s e ex = false <->
  exists b, In b (bookings d) /\
            Booking.roomId b = roomId /\ Booking.date b = date /\
            Booking.status b = "confirmed" /\
            Spec.skipped ex b = false /\
            Storage.times_conflict s e (Booking.startTime b)
                                       (Booking.endTime b) = true.
Proof.
  rewrite selected_rows, scan_conflicts_false. split.
  - intros [b [Hin [Hs Ht]]]. apply filter_In in Hin as [Hin Hc].
    rewrite !andb_true_iff, Z.eqb_eq, !String.eqb_eq in Hc.
    exists b. tauto.
  - intros [b [Hin [Hr [Hd [Hst [Hs Ht]]]]]]. exists b.
    rewrite filter_In, !andb_true_iff, Z.eqb_eq, !String.eqb_eq. tauto.
Qed.

Lemma checkRoomAvailability_true (d : Db) (roomId : Z) (date s e : string)
    (ex : option Z) :
  Storage.checkRoomAvailability d roomId date s e ex = true <->
  forall b, In b (bookings d) ->
            Booking.roomId b = roomId -> Booking.date b = date ->
            Booking.status b = "confirmed" ->
            Spec.skipped ex b = false ->
            Storage.times_conflict s e (Booking.startTime b)
                                       (Booking.endTime b) = false.
Proof.
  split.
  - intros H b Hin Hr Hd Hst Hs.
    destruct (Storage.times_conflict _ _ _ _) eqn:Ht; auto.
    assert (Storage.checkRoomAvailability d roomId date s e ex = false).
    { apply checkRoomAvailability_false. exists b. auto 7. }
    congruence.
  - intros H.
    destruct (Storage.checkRoomAvailability d roomId date s e ex) eqn:Hc; auto.
    apply checkRoomAvailability_false in Hc
      as [b [Hin [Hr [Hd [Hst [Hs Ht]]]]]].
    rewrite (H b Hin Hr Hd Hst Hs) in Ht. discriminate.
Qed.

(** With keys from the sequence, a row is Spec.skipped exactly when it is the
    excluded booking. *)
Lemma skipped_false_iff (d : Db) (ex : option Z) (b : Booking.t) :
  serial_ids d -> In b (bookings d) ->
  (Spec.skipped ex b = false <-> ex <> Some (Booking.id b)).
Proof.
  intros [_ Hall] Hin.
  rewrite Forall_forall in Hall. specialize (Hall b Hin).
  rewrite <- not_true_iff_false, skipped_true_iff. split.
  - intros H E. apply H. split; [assumption | lia].
  - intros H [E _]. contradiction.
Qed.

End AvailabilityFacts.

(** ** C1: availability against half-open overlap *)

Module C1.
Import JsString JsStringFacts OverlapFacts AvailabilityFacts.




(** Intervals that touch share no instant, whatever their shape. *)
Lemma touching_intervals_disjoint (s e x : string) :
  ~ Spec.overlaps s e e x /\ ~ Spec.overlaps s e x s.
Proof.
  unfold Spec.overlaps, Spec.within.
  split; intros [t [[H1 H2] [H3 H4]]].
  - exact (Lts_irrefl t (Lts_Les_trans _ _ _ H2 H3)).
  - exact (Lts_irrefl t (Lts_Les_trans _ _ _ H4 H1)).
Qed.

(** Bookings that are not confirmed play no part in the check, for any
    request: the answer is the one for the confirmed rows alone. *)
Lemma cancelled_never_blocks (d : Db) (roomId : Z) (date s e : string)
    (ex : option Z) :
  Storage.checkRoomAvailability d roomId date s e ex =
  Storage.checkRoomAvailability
    (with_bookings d
       (filter (fun b => String.eqb (Booking.status b) "confirmed")
               (bookings d))
       (bookings_id_seq d))
    roomId date s e ex.
Proof.
  rewrite !selected_rows. simpl bookings. f_equal.
  induction (bookings d) as [|b l IH]; simpl; auto.
  destruct (String.eqb (Booking.status b) "confirmed") eqn:E; simpl.
  - rewrite E. destruct (_ && _); simpl; rewrite IH; reflexivity.
  - rewrite !andb_false_r. exact IH.
Qed.

(** The string order is the one of the driver's strings: a time without
    seconds sorts before the same time with seconds. *)
Example prefix_is_smaller : JsString.lt "10:00" "10:00:00" = true.
Proof. reflexivity. Qed.

End C1.

(** ** C2: the excluded booking *)

Module C2.
Import JsString JsStringFacts OverlapFacts AvailabilityFacts.

(** Excluding a key is checking against the table without that row. *)
Lemma exclusion_is_removal (d : Db) (roomId : Z) (date s e : string) (x : Z) :
  x <> 0 ->
  Storage.checkRoomAvailability d roomId date s e (Some x) =
  Storage.checkRoomAvailability (Storage.deleteBooking d x) roomId date s e None.
Proof.
  intros Hx. rewrite !selected_rows.
  unfold Storage.deleteBooking; simpl bookings.
  induction (bookings d) as [|b l IH]; simpl; auto.
  destruct (Booking.id b =? x) eqn:Hid; simpl.
  - destruct (_ && _); simpl; auto.
    unfold truthy_number. rewrite Hid.
    apply Z.eqb_neq in Hx. rewrite Hx. simpl. exact IH.
  - destruct (_ && _); simpl; auto.
    rewrite Hid, andb_false_r. rewrite IH. reflexivity.
Qed.

(** C2 (as amended).  Let the keys come from the serial sequence, let [B]
    be a confirmed booking of the table whose interval is proper, and let
    every other confirmed booking on [B]'s room and date be a proper
    interval that does not overlap [B]'s.  Then checking [B]'s own room,
    date and times with [excludeBookingId = B.id] answers [true]. *)
Theorem own_slot_available (d : Db) (B : Booking.t) :
  serial_ids d ->
  In B (bookings d) ->
  Booking.status B = "confirmed" ->
  Lts (Booking.startTime B) (Booking.endTime B) ->
  (forall b, In b (bookings d) ->
             Spec.competes (Booking.roomId B) (Booking.date B)
                           (Some (Booking.id B)) b ->
             Lts (Booking.startTime b) (Booking.endTime b) /\
             ~ Spec.overlaps (Booking.startTime B) (Booking.endTime B)
                             (Booking.startTime b) (Booking.endTime b)) ->
  Storage.checkRoomAvailability d (Booking.roomId B) (Booking.date B)
    (Booking.startTime B) (Booking.endTime B) (Some (Booking.id B)) = true.
Proof.
  intros Hser HB _ Hp Hothers.
  apply checkRoomAvailability_true.
  intros b Hin Hr Hd Hst Hs.
  assert (Hc : Spec.competes (Booking.roomId B) (Booking.date B)
                             (Some (Booking.id B)) b).
  { repeat split; auto. apply (skipped_false_iff d); auto. }
  destruct (Hothers b Hin Hc) as [Hb Hno].
  apply not_true_iff_false. intro Ht. apply Hno.
  apply times_conflict_proper; auto.
Qed.

(** The theorem at the morning booking, alone in its room. *)
Lemma own_slot_available_witness :
  Storage.checkRoomAvailability Sample.morning_db 1 Sample.day
    "09:00" "10:00" (Some 1) = true.
Proof.
  apply (own_slot_available Sample.morning_db
           (Sample.booking 1 "u1" 1 "09:00" "10:00" "confirmed")).
  - split; [reflexivity | repeat constructor].
  - left; reflexivity.
  - reflexivity.
  - reflexivity.
  - intros b [<-|[]] [_ [_ [_ Hex]]]. exfalso. apply Hex. reflexivity.
Defined.

(** C2 as stated fails on the code: booking 1 holds 22:00 to 23:00, the
    only other booking of the room, 23:00 to 00:00, overlaps nothing, and
    yet checking booking 1's own slot with itself excluded answers
    [false]. *)
Lemma own_slot_refused :
  let B := Sample.booking 1 "u1" 1 "22:00" "23:00" "confirmed" in
  In B (bookings Sample.evening_db) /\
  Booking.status B = "confirmed" /\
  (forall b, In b (bookings Sample.evening_db) ->
             Spec.competes (Booking.roomId B) (Booking.date B)
                           (Some (Booking.id B)) b ->
             ~ Spec.overlaps (Booking.startTime B) (Booking.endTime B)
                             (Booking.startTime b) (Booking.endTime b)) /\
  Storage.checkRoomAvailability Sample.evening_db
    (Booking.roomId B) (Booking.date B)
    (Booking.startTime B) (Booking.endTime B) (Some (Booking.id B)) = false.
Proof.
  cbv zeta. split; [left; reflexivity | split; [reflexivity | split]].
  - intros b [<-|[<-|[]]] [_ [_ [_ Hex]]].
    + exfalso. apply Hex. reflexivity.
    + apply overlaps_improper_r. intro H. discriminate H.
  - reflexivity.
Qed.

End C2.

(** ** The sample states are reached through the routes *)

Module Reach.

Example late_db_reached :
  db (fst (Routes.post_bookings Sample.env0 Sample.start "u1"
             (Sample.request 1 "23:00" "00:00"))) = Sample.late_db.
Proof. reflexivity. Qed.

Example evening_db_reached :
  let (w1, r1) := Routes.post_bookings Sample.env0 Sample.start "u1"
                    (Sample.request 1 "22:00" "23:00") in
  let (w2, r2) := Routes.post_bookings Sample.env0 w1 "u2"
                    (Sample.request 1 "23:00" "00:00") in
  status r1 = 201 /\ status r2 = 201 /\ db w2 = Sample.evening_db.
Proof. vm_compute. auto. Qed.

(** Saving booking 1 of the evening with its own times is refused. *)
Example evening_edit_refused :
  status (snd (Routes.put_booking Sample.env0
                 (mkWorld Sample.evening_db []) "u1" 1
                 (Sample.only_times "22:00" "23:00"))) = 409.
Proof. reflexivity. Qed.

(** The scenario of the specification: 09:00 to 10:00 is booked; 09:30 to
    10:30 is refused, 10:00 to 11:00 is accepted. *)
Example scenario :
  status (snd (Routes.post_bookings Sample.env0
                 (mkWorld Sample.morning_db []) "u2"
                 (Sample.request 1 "09:30" "10:30"))) = 409 /\
  status (snd (Routes.post_bookings Sample.env0
                 (mkWorld Sample.morning_db []) "u2"
                 (Sample.request 1 "10:00" "11:00"))) = 201.
Proof. split; reflexivity. Qed.

End Reach.

(** ** The booking routes *)

Module RouteFacts.

(** Validation fails with a [ZodError] only. *)
Lemma validate_new_throws (userId : string) (req : BookingBody) (e : Exn) :
  Routes.validate_new userId req = Throw e -> exists issue, e = ZodError issue.
Proof.
  unfold Routes.validate_new, Zod.insertBookingSchema_parse.
  destruct req as [t de u r da st en at_ sta si]; simpl.
  destruct t as [|?|?]; simpl; try (intros [= <-]; eauto).
  destruct de as [|?|?]; simpl; try (intros [= <-]; eauto);
  (destruct r as [|?|?]; simpl; try (intros [= <-]; eauto);
   destruct da as [|?|?]; simpl; try (intros [= <-]; eauto);
   destruct st as [|?|?]; simpl; try (intros [= <-]; eauto);
   destruct en as [|?|?]; simpl; try (intros [= <-]; eauto);
   destruct (Routes.attendees_or_empty at_) as [|?|?]; simpl;
     try (intros [= <-]; eauto);
   destruct sta as [|?|?]; simpl; try (intros [= <-]; eauto);
   discriminate).
Qed.

(** A body that fails validation is answered 400 and changes nothing. *)
Lemma invalid_request_400 (env : Env) (w : World) (userId : string)
    (req : BookingBody) (e : Exn) :
  Routes.validate_new userId req = Throw e ->
  exists errors,
    Routes.post_bookings env w userId req =
    (w, mkResponse 400 (ErrorsJson "Invalid booking data" errors)).
Proof.
  intros H. destruct (validate_new_throws _ _ _ H) as [issue ->].
  unfold Routes.post_bookings. rewrite H. eauto.
Qed.




(** The mail module of the repository never throws: each function catches
    the provider's failure and resolves to [false]. *)
Lemma sendgrid_never_throws (ms : MailService) (attendees : list string)
    (to : string) (data : BookingEmailData) (c : Console) :
  (exists ok, snd (invites (sendgrid ms) attendees data c) = Ok ok) /\
  (exists ok, snd (confirmation (sendgrid ms) to data c) = Ok ok).
Proof.
  simpl. unfold EmailService.sendBookingInvites,
    EmailService.sendBookingConfirmation.
  destruct (configured ms); simpl.
  - split; destruct (send ms _); simpl; eauto.
  - split; eauto.
Qed.

(** C9.  Whatever the two notification functions do (resolve to [true]
    or [false], or throw), [POST /api/bookings] gives the same answer and
    leaves the same database, only the console can differ; and once the
    validated booking passed the availability check, the database is the
    one [createBooking] produced and the answer is 201 with the created
    row. *)
Theorem notification_outcome_ignored (clock : Z) (n n' : Notifier) (w : World)
    (userId : string) (req : BookingBody) :
  snd (Routes.post_bookings (mkEnv clock n) w userId req) =
  snd (Routes.post_bookings (mkEnv clock n') w userId req) /\
  db (fst (Routes.post_bookings (mkEnv clock n) w userId req)) =
  db (fst (Routes.post_bookings (mkEnv clock n') w userId req)) /\
  (forall v,
     Routes.validate_new userId req = Ok v ->
     Storage.checkRoomAvailability (db w) (ib_roomId v) (ib_date v)
       (ib_startTime v) (ib_endTime v) None = true ->
     snd (Routes.post_bookings (mkEnv clock n) w userId req) =
       mkResponse 201 (BookingJson (snd (Storage.createBooking (db w) clock v)))
     /\
     db (fst (Routes.post_bookings (mkEnv clock n) w userId req)) =
       fst (Storage.createBooking (db w) clock v)).
Proof.
  unfold Routes.post_bookings. split; [|split].
  - destruct (Routes.validate_new userId req) as [v|[]]; simpl; auto.
    destruct (Storage.checkRoomAvailability _ _ _ _ _ _); simpl; auto.
  - destruct (Routes.validate_new userId req) as [v|[]]; simpl; auto.
    destruct (Storage.checkRoomAvailability _ _ _ _ _ _); simpl; auto.
  - intros v Hv Hc. rewrite Hv. simpl. rewrite Hc. split; reflexivity.
Qed.

(** The theorem at a request with invitations, for a mail module whose
    first function throws. *)
Lemma notification_outcome_ignored_witness :
  snd (Routes.post_bookings (mkEnv 0 Sample.failing) Sample.staffed "u1"
         Sample.invitation) =
  mkResponse 201
    (BookingJson (Booking.mk 1 "Sync" None "u1" 1 Sample.day "09:00" "10:00"
                             ["a@company.com"] "confirmed" 0 0)).
Proof.
  destruct (notification_outcome_ignored 0 Sample.failing Sample.quiet
              Sample.staffed "u1" Sample.invitation) as [_ [_ H]].
  apply (H (mkInsertBooking "Sync" None "u1" 1 Sample.day "09:00" "10:00"
                            (Some ["a@company.com"]) None)); reflexivity.
Defined.

(** The failure is visible on the console, and nowhere else. *)
Example failing_notifier_logged :
  console (fst (Routes.post_bookings (mkEnv 0 Sample.failing) Sample.staffed
                  "u1" Sample.invitation)) =
    ["Failed to send notifications:"] /\
  console (fst (Routes.post_bookings (mkEnv 0 Sample.quiet) Sample.staffed
                  "u1" Sample.invitation)) = [].
Proof. split; reflexivity. Qed.

Lemma guard_false_iff (w : World) (userId : string) (b : Booking.t) :
  negb (String.eqb (Booking.userId b) userId) &&
  negb (Routes.is_admin (Storage.getUser (db w) userId)) = false <->
  Spec.may_mutate w userId b.
Proof.
  unfold Spec.may_mutate.
  rewrite andb_false_iff, !negb_false_iff, String.eqb_eq. tauto.
Qed.

(** C8.  When the booking exists, the requester is not its owner and is
    not an admin (the role of the user row is not ["admin"], or there is
    no user row), [PUT /api/bookings/:id] and [DELETE /api/bookings/:id]
    answer 403 and leave the server state as it was. *)
Theorem foreign_booking_forbidden (env : Env) (w : World) (userId : string)
    (bookingId : Z) (req : BookingBody) (existing : BookingWithDetails) :
  Storage.getBooking (db w) bookingId = Some existing ->
  Booking.userId (bwd_booking existing) <> userId ->
  Routes.is_admin (Storage.getUser (db w) userId) = false ->
  Routes.put_booking env w userId bookingId req =
    (w, mkResponse 403 (MessageJson "Access denied")) /\
  Routes.delete_booking w userId bookingId =
    (w, mkResponse 403 (MessageJson "Access denied")).
Proof.
  intros Hb Ho Ha.
  unfold Routes.put_booking, Routes.delete_booking. rewrite Hb, Ha.
  apply String.eqb_neq in Ho. rewrite Ho. simpl. auto.
Qed.

(** The theorem at the morning booking of [u1], for the requester [u2]. *)
Lemma foreign_booking_forbidden_witness :
  Routes.put_booking Sample.env0 (mkWorld Sample.morning_db []) "u2" 1
    (Sample.only_status "cancelled") =
    (mkWorld Sample.morning_db [],
     mkResponse 403 (MessageJson "Access denied")) /\
  Routes.delete_booking (mkWorld Sample.morning_db []) "u2" 1 =
    (mkWorld Sample.morning_db [],
     mkResponse 403 (MessageJson "Access denied")).
Proof.
  apply (foreign_booking_forbidden Sample.env0 (mkWorld Sample.morning_db [])
           "u2" 1 (Sample.only_status "cancelled")
           (mkBookingWithDetails
              (Sample.booking 1 "u1" 1 "09:00" "10:00" "confirmed") None None)).
  - reflexivity.
  - intro H. discriminate H.
  - reflexivity.
Defined.

(** The two routes change the database only for the owner or an admin. *)
Lemma mutation_needs_owner_or_admin (env : Env) (w : World) (userId : string)
    (bookingId : Z) (req : BookingBody) :
  (db (fst (Routes.put_booking env w userId bookingId req)) <> db w \/
   db (fst (Routes.delete_booking w userId bookingId)) <> db w) ->
  exists existing,
    Storage.getBooking (db w) bookingId = Some existing /\
    Spec.may_mutate w userId (bwd_booking existing).
Proof.
  unfold Routes.put_booking, Routes.delete_booking.
  destruct (Storage.getBooking (db w) bookingId) as [existing|]; simpl.
  - intros H. exists existing. split; auto.
    apply guard_false_iff.
    destruct (negb _ && negb _); simpl in H; auto.
    destruct H as [H|H]; exfalso; apply H; reflexivity.
  - intros [H|H]; exfalso; apply H; reflexivity.
Qed.

(** The owner may cancel and confirm again without any check: a ["status"]
    alone does not trigger the availability check. *)
Example status_change_unchecked :
  let (w1, r1) := Routes.put_booking Sample.env0
                    (mkWorld Sample.morning_db []) "u1" 1
                    (Sample.only_status "cancelled") in
  let (w2, r2) := Routes.post_bookings Sample.env0 w1 "u2"
                    (Sample.request 1 "09:00" "10:00") in
  let (w3, r3) := Routes.put_booking Sample.env0 w2 "u1" 1
                    (Sample.only_status "confirmed") in
  (status r1, status r2, status r3) = (200, 201, 200) /\
  map (fun b => (Booking.id b, Booking.startTime b, Booking.status b))
      (bookings (db w3)) =
    [(1, "09:00", "confirmed"); (2, "09:00", "confirmed")].
Proof. vm_compute. auto. Qed.

End RouteFacts.

(** ** Rooms and the auth configuration *)

Module TableFacts.

Lemma insert_asc_In {A : Type} (key : A -> string) (x y : A) (l : list A) :
  In y (insert_asc key x l) <-> y = x \/ In y l.
Proof.
  induction l as [|z l IH]; simpl.
  - intuition.
  - destruct (JsString.le (key x) (key z)); simpl; rewrite ?IH; intuition.
Qed.

(** Ordering a result keeps its rows. *)
Lemma orderBy_asc_In {A : Type} (key : A -> string) (y : A) (l : list A) :
  In y (orderBy_asc key l) <-> In y l.
Proof.
  induction l as [|x l IH]; simpl.
  - tauto.
  - rewrite insert_asc_In, IH. intuition.
Qed.

Lemma getActiveRooms_In (d : Db) (r : Room.t) :
  In r (Storage.getActiveRooms d) <-> In r (rooms d) /\ Room.isActive r = true.
Proof.
  unfold Storage.getActiveRooms. rewrite orderBy_asc_In, filter_In. tauto.
Qed.

(** C6.  [deleteRoom id] keeps every row of [rooms], in place: a row with
    another key is unchanged, a row with the key [id] keeps every column
    but [isActive], which becomes [false].  No room with that key appears
    in [getActiveRooms] afterwards, every other active room still does,
    and the other tables, the bookings first, are unchanged, so that each
    booking is found as before. *)
Theorem deleteRoom_is_soft (d : Db) (id : Z) :
  (forall r, In r (Storage.getActiveRooms (Storage.deleteRoom d id)) ->
             Room.id r <> id) /\
  (forall r, In r (Storage.getActiveRooms d) -> Room.id r <> id ->
             In r (Storage.getActiveRooms (Storage.deleteRoom d id))) /\
  Forall2 (Spec.soft_deleted id) (rooms d) (rooms (Storage.deleteRoom d id)) /\
  bookings (Storage.deleteRoom d id) = bookings d /\
  users (Storage.deleteRoom d id) = users d /\
  authConfig (Storage.deleteRoom d id) = authConfig d /\
  (forall bookingId,
     option_map bwd_booking
       (Storage.getBooking (Storage.deleteRoom d id) bookingId) =
     option_map bwd_booking (Storage.getBooking d bookingId)).
Proof.
  repeat split.
  - intros r Hin. apply getActiveRooms_In in Hin as [Hin Hact].
    simpl in Hin. apply in_map_iff in Hin as [r0 [Hr Hin]].
    destruct (Room.id r0 =? id) eqn:E.
    + subst r. simpl in Hact. discriminate.
    + subst r. apply Z.eqb_neq. exact E.
  - intros r Hin Hne. apply getActiveRooms_In in Hin as [Hin Hact].
    apply getActiveRooms_In. split; auto. simpl.
    apply in_map_iff. exists r. split; auto.
    apply Z.eqb_neq in Hne. rewrite Hne. reflexivity.
  - simpl. induction (rooms d) as [|r l IH]; simpl; constructor; auto.
    destruct (Room.id r =? id) eqn:E; unfold Spec.soft_deleted; simpl.
    + apply Z.eqb_eq in E. repeat split; auto. intros H. contradiction.
    + apply Z.eqb_neq in E. repeat split; auto. intros H. contradiction.
  - intros bookingId. unfold Storage.getBooking. simpl.
    destruct (find _ (bookings d)); reflexivity.
Qed.

Lemma filter_deactivated (l : list AuthConfig.t) :
  filter AuthConfig.isActive (map Storage.deactivate l) = [].
Proof. induction l; simpl; auto. Qed.

(** C5.  After [setAuthConfig authType config] the table is the old rows,
    each switched off, followed by one new row; the new row carries
    [authType] and [config] and is active, and it is the only active row
    of the table, whatever the table held before. *)
Theorem setAuthConfig_single_active (d : Db) (clock : Z) (authType : string)
    (config : Json) :
  exists (row : AuthConfig.t) (olds : list AuthConfig.t),
    authConfig (Storage.setAuthConfig d clock authType config) =
      (olds ++ [row])%list /\
    Forall2 Spec.switched_off (authConfig d) olds /\
    AuthConfig.authType row = authType /\
    AuthConfig.config row = config /\
    AuthConfig.isActive row = true /\
    filter AuthConfig.isActive
      (authConfig (Storage.setAuthConfig d clock authType config)) = [row] /\
    Storage.getActiveAuthConfig
      (Storage.setAuthConfig d clock authType config) = Some row.
Proof.
  eexists. exists (map Storage.deactivate (authConfig d)).
  split; [reflexivity|]. split.
  { induction (authConfig d); simpl; constructor; auto.
    unfold Spec.switched_off; simpl; auto. }
  repeat split.
  - simpl. rewrite filter_app, filter_deactivated. reflexivity.
  - unfold Storage.getActiveAuthConfig. simpl.
    induction (authConfig d) as [|c l IH]; simpl; auto.
Qed.

End TableFacts.

(** ** Dashboard statistics *)

Module StatsFacts.

Lemma no_active_rows (l : list Room.t) :
  (forall r, In r l -> Room.isActive r = false) -> filter Room.isActive l = [].
Proof.
  induction l as [|r l IH]; simpl; intros H; auto.
  rewrite (H r (or_introl eq_refl)). apply IH. intros r' Hin. apply H. auto.
Qed.

(** C10.  When no room is active, [utilizationRate] is 0, whatever the
    bookings of the day are: the quotient is not computed. *)
Theorem utilization_without_rooms (d : Db) (today currentTime : string) :
  (forall r, In r (rooms d) -> Room.isActive r = false) ->
  utilizationRate (Storage.getBookingStats d today currentTime) = 0.
Proof.
  intros H. unfold Storage.getBookingStats. simpl.
  rewrite (no_active_rows _ H). reflexivity.
Qed.

(** The theorem at a database with one inactive room and two confirmed
    bookings today. *)
Lemma utilization_without_rooms_witness :
  utilizationRate (Storage.getBookingStats Sample.closed_db Sample.day "09:30")
  = 0.
Proof.
  apply (utilization_without_rooms Sample.closed_db Sample.day "09:30").
  intros r [<-|[]]. reflexivity.
Defined.

(** The three figures of C4 that the code computes as worded. *)
Lemma stats_figures (d : Db) (today currentTime : string) :
  let stats := Storage.getBookingStats d today currentTime in
  let confirmed_today :=
    filter (fun b => String.eqb (Booking.date b) today &&
                     String.eqb (Booking.status b) "confirmed") (bookings d) in
  totalRooms stats = Z.of_nat (length (filter Room.isActive (rooms d))) /\
  totalBookingsToday stats = Z.of_nat (length confirmed_today) /\
  (0 < totalRooms stats ->
   utilizationRate stats =
   Math_round (inject_Z (totalBookingsToday stats)
               / inject_Z (totalRooms stats * 8) * inject_Z 100)%Q) /\
  availableRooms stats =
    totalRooms stats -
    Z.of_nat (length (filter
      (fun b => JsString.le (Booking.startTime b) currentTime &&
                JsString.lt currentTime (Booking.endTime b))
      confirmed_today)).
Proof.
  cbv zeta. unfold Storage.getBookingStats. simpl. repeat split.
  intros H. apply Z.gtb_lt in H. rewrite H. reflexivity.
Qed.

(** The example of the specification: two active rooms and one confirmed
    booking that spans the current time. *)
Example stats_example :
  Storage.getBookingStats Sample.busy_db Sample.day "09:30" =
  mkBookingStats 2 1 1 6.
Proof. reflexivity. Qed.

(** C4 fails on the code at a state the routes produce: with two active
    rooms and two confirmed bookings in room 1 that both contain 10:30,
    one room is occupied and one is free, but [availableRooms] is 0: the
    code subtracts the number of bookings, not the number of rooms. *)
Theorem availableRooms_counts_bookings :
  availableRooms (Storage.getBookingStats Sample.double_db Sample.day "10:30")
    = 0 /\
  totalRooms (Storage.getBookingStats Sample.double_db Sample.day "10:30")
    = 2 /\
  Spec.availableRooms Sample.day "10:30" Sample.double_db = 1.
Proof. repeat split. Qed.

(** The state is reached by four requests: book, cancel, book the same
    room over it, confirm the first again. *)
Example double_db_reached :
  let w0 := mkWorld Sample.two_rooms [] in
  let (w1, r1) := Routes.post_bookings Sample.env0 w0 "u1"
                    (Sample.request 1 "09:00" "11:00") in
  let (w2, r2) := Routes.put_booking Sample.env0 w1 "u1" 1
                    (Sample.only_status "cancelled") in
  let (w3, r3) := Routes.post_bookings Sample.env0 w2 "u2"
                    (Sample.request 1 "10:00" "12:00") in
  let (w4, r4) := Routes.put_booking Sample.env0 w3 "u1" 1
                    (Sample.only_status "confirmed") in
  (status r1, status r2, status r3, status r4) = (201, 200, 201, 200) /\
  db w4 = Sample.double_db.
Proof. vm_compute. auto. Qed.

(** A booking for a room number without a row has the same effect: both
    rooms are free and [availableRooms] is 1. *)
Example phantom_room_counted :
  db (fst (Routes.post_bookings Sample.env0 (mkWorld Sample.two_rooms [])
             "u1" (Sample.request 999 "09:00" "11:00"))) = Sample.phantom_db /\
  availableRooms (Storage.getBookingStats Sample.phantom_db Sample.day "10:30")
    = 1 /\
  Spec.availableRooms Sample.day "10:30" Sample.phantom_db = 2.
Proof. repeat split. Qed.

(** The bookings the code counts: confirmed, dated today, containing the
    current time. *)
Lemma counted_bookings (d : Db) (today currentTime : string) (b : Booking.t) :
  In b (filter
          (fun b => JsString.le (Booking.startTime b) currentTime &&
                    JsString.gt (Booking.endTime b) currentTime)
          (filter (fun b => String.eqb (Booking.date b) today &&
                            String.eqb (Booking.status b) "confirmed")
                  (bookings d))) <->
  In b (bookings d) /\
  (String.eqb (Booking.date b) today &&
   String.eqb (Booking.status b) "confirmed" &&
   JsString.le (Booking.startTime b) currentTime &&
   JsString.lt currentTime (Booking.endTime b)) = true.
Proof.
  rewrite !filter_In, !andb_true_iff. unfold JsString.gt. tauto.
Qed.

(** Selecting rows keeps their keys distinct. *)
Lemma distinct_keys_selected {Row Key : Type} (rows : list Row)
    (key : Row -> Key) (keep : Row -> bool) :
  NoDup (map key rows) -> NoDup (map key (filter keep rows)).
Proof.
  induction rows as [|x rows IH]; simpl; intros H; auto.
  inversion H as [|? ? Hx Hl]; subst.
  destruct (keep x); simpl; auto.
  constructor; auto.
  intros Hin. apply Hx. apply in_map_iff in Hin as [y [Hy Hin]].
  apply in_map_iff. exists y. split; auto.
  apply filter_In in Hin. tauto.
Qed.

(** Where the code and the wording of C4 agree: when the rows of [rooms]
    have distinct keys and the counted bookings lie in pairwise distinct
    rooms of the table, the number of counted bookings is the number of
    occupied rooms. *)
Lemma availableRooms_agree (d : Db) (today currentTime : string) :
  let counted :=
    filter (fun b => JsString.le (Booking.startTime b) currentTime &&
                     JsString.gt (Booking.endTime b) currentTime)
           (filter (fun b => String.eqb (Booking.date b) today &&
                             String.eqb (Booking.status b) "confirmed")
                   (bookings d)) in
  NoDup (map Room.id (rooms d)) ->
  NoDup (map Booking.roomId counted) ->
  (forall b, In b counted ->
             exists r, In r (rooms d) /\ Room.id r = Booking.roomId b) ->
  availableRooms (Storage.getBookingStats d today currentTime) =
  Spec.availableRooms today currentTime d.
Proof.
  intros counted Hrooms Hdistinct Hexist.
  unfold Storage.getBookingStats, Spec.availableRooms. simpl.
  fold counted. f_equal. f_equal.
  rewrite <- (length_map Booking.roomId counted).
  rewrite <- (length_map Room.id
                (filter (Spec.occupied_now today currentTime d) (rooms d))).
  apply Permutation.Permutation_length.
  apply Permutation.NoDup_Permutation; auto using distinct_keys_selected.
  intros x. rewrite !in_map_iff. split.
  - intros [b [Hx Hb]]. destruct (Hexist b Hb) as [r [Hr Hid]].
    exists r. split; [congruence|]. apply filter_In. split; auto.
    unfold Spec.occupied_now. apply existsb_exists. exists b.
    apply counted_bookings in Hb as [Hb Hc]. split; auto.
    rewrite !andb_true_iff in *. rewrite Z.eqb_eq. intuition.
  - intros [r [Hx Hr]]. apply filter_In in Hr as [Hr Hocc].
    unfold Spec.occupied_now in Hocc.
    apply existsb_exists in Hocc as [b [Hb Hc]].
    exists b. rewrite !andb_true_iff, Z.eqb_eq in Hc. split; [intuition congruence|].
    apply counted_bookings. split; auto.
    rewrite !andb_true_iff. intuition.
Qed.

End StatsFacts.

(** ** LDAP login *)

Module LdapFacts.

(** A successful upsert returns a row of the new table that carries the
    key and the auth type it was given. *)
Lemma createOrUpdateUser_ok (d d' : Db) (clock : Z) (u : Storage.UserData)
    (r : User.t) :
  Storage.createOrUpdateUser d clock u = Ok (d', r) ->
  In r (users d') /\ User.id r = Storage.ud_id u /\
  User.authType r = Storage.ud_authType u /\
  User.role r = Storage.ud_role u /\
  rooms d' = rooms d /\ bookings d' = bookings d /\
  authConfig d' = authConfig d.
Proof.
  unfold Storage.createOrUpdateUser.
  destruct (Storage.unique_violation (users d) u); [discriminate|].
  destruct (find _ (users d)) as [r0|] eqn:Hf; intros [= <- <-]; simpl.
  - apply find_some in Hf as [Hin Hid]. repeat split; auto.
    apply in_map_iff. exists r0. rewrite Hid. auto.
  - repeat split; auto. apply in_or_app. right. left. reflexivity.
Qed.





(** A wrong password and an unknown name resolve to [null]. *)
Example wrong_password_null :
  snd (AuthService.authenticateLDAP Sample.no_env Sample.directory 0
         Sample.ldap_db "ann" "guess") = Ok None /\
  snd (AuthService.authenticateLDAP Sample.no_env Sample.directory 0
         Sample.ldap_db "bob" "ann-secret") = Ok None.
Proof. split; reflexivity. Qed.

End LdapFacts.

(** ** The keys of the bookings *)

Module KeyFacts.

Lemma serial_ids_empty : serial_ids emptyDb.
Proof. split; [reflexivity | constructor]. Qed.

Lemma serial_ids_createBooking (d : Db) (clock : Z) (v : InsertBooking) :
  serial_ids d -> serial_ids (fst (Storage.createBooking d clock v)).
Proof.
  intros [H0 H]. split; simpl; [lia|].
  apply Forall_app. split.
  - eapply Forall_impl; [|exact H]. simpl. intros b Hb. lia.
  - constructor; [simpl; lia | constructor].
Qed.

Lemma serial_ids_updateBooking (d : Db) (clock id : Z) (p : PartialBooking) :
  serial_ids d -> serial_ids (fst (Storage.updateBooking d clock id p)).
Proof.
  intros [H0 H]. split; simpl; auto.
  apply Forall_map. eapply Forall_impl; [|exact H]. simpl.
  intros b Hb. destruct (Booking.id b =? id); simpl; auto.
Qed.

Lemma serial_ids_deleteBooking (d : Db) (id : Z) :
  serial_ids d -> serial_ids (Storage.deleteBooking d id).
Proof.
  intros [H0 H]. split; simpl; auto.
  rewrite Forall_forall in *. intros b Hb.
  apply filter_In in Hb as [Hb _]. auto.
Qed.

(** The three booking routes keep the keys within the sequence. *)
Lemma serial_ids_routes (env : Env) (w : World) (userId : string)
    (bookingId : Z) (req : BookingBody) :
  serial_ids (db w) ->
  serial_ids (db (fst (Routes.post_bookings env w userId req))) /\
  serial_ids (db (fst (Routes.put_booking env w userId bookingId req))) /\
  serial_ids (db (fst (Routes.delete_booking w userId bookingId))).
Proof.
  intros H. split; [|split].
  - unfold Routes.post_bookings.
    destruct (Routes.validate_new userId req) as [v|[]]; simpl; auto.
    destruct (Storage.checkRoomAvailability _ _ _ _ _ _); simpl; auto.
    apply (serial_ids_createBooking (db w) (now env) v H).
  - unfold Routes.put_booking.
    destruct (Storage.getBooking (db w) bookingId); simpl; auto.
    destruct (negb _ && negb _); simpl; auto.
    destruct (Zod.insertBookingSchema_partial_parse req) as [p|[]]; simpl; auto.
    match goal with |- context [if ?c then _ else _] => destruct c end;
      simpl; auto.
    apply (serial_ids_updateBooking (db w) (now env) bookingId p H).
  - unfold Routes.delete_booking.
    destruct (Storage.getBooking (db w) bookingId); simpl; auto.
    destruct (negb _ && negb _); simpl; auto.
    apply (serial_ids_deleteBooking (db w) bookingId H).
Qed.

End KeyFacts.

(* ================================================================== *)
(** * Further properties of the storage layer *)

Module ListFacts.

Lemma find_snoc {A : Type} (p : A -> bool) (l : list A) (x : A) :
  find p (l ++ [x]) =
  match find p l with
  | Some y => Some y
  | None => if p x then Some x else None
  end.
Proof.
  induction l as [|y l IH]; simpl; auto.
  destruct (p y); auto.
Qed.

Lemma find_none_iff {A : Type} (p : A -> bool) (l : list A) :
  find p l = None <-> forall x, In x l -> p x = false.
Proof.
  split.
  - intros H x Hin. exact (find_none p l H x Hin).
  - induction l as [|y l IH]; simpl; intros H; auto.
    rewrite (H y (or_introl eq_refl)). apply IH. intros x Hin. apply H. auto.
Qed.

Lemma find_ext_in {A : Type} (p q : A -> bool) (l : list A) :
  (forall x, In x l -> p x = q x) -> find p l = find q l.
Proof.
  induction l as [|y l IH]; simpl; intros H; auto.
  rewrite (H y (or_introl eq_refl)).
  destruct (q y); [reflexivity|]. apply IH. intros x Hin. apply H. auto.
Qed.

Lemma find_filter {A : Type} (p q : A -> bool) (l : list A) :
  find p (filter q l) = find (fun x => q x && p x) l.
Proof.
  induction l as [|y l IH]; simpl; auto.
  destruct (q y); simpl; auto. destruct (p y); auto.
Qed.

Lemma find_map_key {A : Type} (p : A -> bool) (f : A -> A) (l : list A) :
  (forall x, p (f x) = p x) ->
  find p (map f l) = option_map f (find p l).
Proof.
  intros H. induction l as [|y l IH]; simpl; auto.
  rewrite H. destruct (p y); auto.
Qed.

Lemma map_id_in {A : Type} (f : A -> A) (l : list A) :
  (forall x, In x l -> f x = x) -> map f l = l.
Proof.
  induction l as [|y l IH]; simpl; intros H; auto.
  rewrite (H y (or_introl eq_refl)), IH; auto.
Qed.

Section Sorting.
Context {A : Type} (before : A -> A -> bool).
Hypothesis before_total : forall x y, before x y = false -> before y x = true.

Lemma insert_row_perm (x : A) (l : list A) :
  Permutation (insert_row before x l) (x :: l).
Proof.
  induction l as [|y l IH]; simpl; auto.
  destruct (before x y); auto.
  rewrite IH. apply perm_swap.
Qed.

Lemma orderBy_rows_perm (l : list A) : Permutation (orderBy_rows before l) l.
Proof.
  induction l as [|x l IH]; simpl; auto.
  rewrite insert_row_perm. auto.
Qed.

Lemma insert_row_hd (x y : A) (l : list A) :
  before y x = true ->
  HdRel (fun a b => before a b = true) y l ->
  HdRel (fun a b => before a b = true) y (insert_row before x l).
Proof.
  intros Hyx H. destruct l as [|z l]; simpl.
  - constructor. exact Hyx.
  - destruct (before x z); constructor; auto.
    inversion H; auto.
Qed.

Lemma insert_row_sorted (x : A) (l : list A) :
  Sorted (fun a b => before a b = true) l ->
  Sorted (fun a b => before a b = true) (insert_row before x l).
Proof.
  induction l as [|y l IH]; simpl; intros H.
  - repeat constructor.
  - destruct (before x y) eqn:E.
    + constructor; auto.
    + inversion H; subst. constructor; auto.
      apply insert_row_hd; auto.
Qed.

Lemma orderBy_rows_sorted (l : list A) :
  Sorted (fun a b => before a b = true) (orderBy_rows before l).
Proof.
  induction l as [|x l IH]; simpl.
  - constructor.
  - apply insert_row_sorted. exact IH.
Qed.

End Sorting.

End ListFacts.

Module StorageProps.
Import ListFacts.

Lemma with_bookings_same (d : Db) :
  with_bookings d (bookings d) (bookings_id_seq d) = d.
Proof. destruct d; reflexivity. Qed.

Lemma filter_all {A : Type} (p : A -> bool) (l : list A) :
  (forall x, In x l -> p x = true) -> filter p l = l.
Proof.
  induction l as [|y l IH]; simpl; intros H; auto.
  rewrite (H y (or_introl eq_refl)), IH; auto.
Qed.

Lemma getBooking_find (d : Db) (id : Z) :
  Storage.getBooking d id =
  option_map (StorageMore.with_details d)
             (find (fun b => Booking.id b =? id) (bookings d)).
Proof. unfold Storage.getBooking. destruct (find _ _); reflexivity. Qed.



Lemma getBooking_after_delete (d : Db) (id : Z) :
  Storage.getBooking (Storage.deleteBooking d id) id = None /\
  (forall id', id' <> id ->
     Storage.getBooking (Storage.deleteBooking d id) id' =
     Storage.getBooking d id').
Proof.
  split.
  - rewrite getBooking_find. simpl. rewrite find_filter.
    replace (find _ (bookings d)) with (@None Booking.t); auto.
    symmetry. apply find_none_iff. intros b _.
    destruct (Booking.id b =? id); reflexivity.
  - intros id' Hne. rewrite !getBooking_find. simpl. rewrite find_filter.
    f_equal. apply find_ext_in. intros b _.
    destruct (Booking.id b =? id') eqn:E1; [|apply andb_false_r].
    apply Z.eqb_eq in E1. rewrite E1.
    apply Z.eqb_neq in Hne. rewrite Hne. reflexivity.
Qed.

(** X2.  After [deleteBooking id] no booking is found under [id], every
    other key is answered as before, and deleting a key that is not in
    the table changes nothing. *)
Theorem deleteBooking_then_getBooking (d : Db) (id : Z) :
  Storage.getBooking (Storage.deleteBooking d id) id = None /\
  (forall id', id' <> id ->
     Storage.getBooking (Storage.deleteBooking d id) id' =
     Storage.getBooking d id') /\
  (Storage.getBooking d id = None -> Storage.deleteBooking d id = d).
Proof.
  destruct (getBooking_after_delete d id) as [H1 H2].
  split; [exact H1|split; [exact H2|]].
  - rewrite getBooking_find. intros H.
    destruct (find _ (bookings d)) eqn:Hf; [discriminate|].
    unfold Storage.deleteBooking. rewrite filter_all.
    + apply with_bookings_same.
    + intros b Hb. rewrite (find_none _ _ Hf b Hb). reflexivity.
Qed.

Lemma updateBooking_returns (d : Db) (clock id : Z) (p : PartialBooking) :
  snd (Storage.updateBooking d clock id p) =
  option_map (Storage.booking_set clock p)
             (option_map bwd_booking (Storage.getBooking d id)).
Proof.
  rewrite getBooking_find. simpl.
  rewrite (find_map_key (fun b => Booking.id b =? id)).
  - destruct (find _ (bookings d)) eqn:Hf; simpl; auto.
    apply find_some in Hf as [_ Hid]. rewrite Hid. reflexivity.
  - intros b. destruct (Booking.id b =? id) eqn:E; simpl; exact E.
Qed.


Lemma orderBy_asc_rows {A : Type} (key : A -> string) (l : list A) :
  orderBy_asc key l =
  orderBy_rows (fun x y => JsString.le (key x) (key y)) l.
Proof. reflexivity. Qed.

Lemma le_total_false (a b : string) :
  JsString.le a b = false -> JsString.le b a = true.
Proof.
  intros H. destruct (String.leb_total a b) as [H'|H']; auto.
  unfold JsString.le in H. congruence.
Qed.

(** X4.  [getActiveRooms] returns exactly the active rows of [rooms],
    each as often as the table holds it, in ascending order of [name];
    [getAllRooms] does the same for all rows. *)
Theorem rooms_sorted_by_name (d : Db) :
  Permutation (Storage.getActiveRooms d) (filter Room.isActive (rooms d)) /\
  Sorted (fun a b => JsString.le (Room.name a) (Room.name b) = true)
         (Storage.getActiveRooms d) /\
  Permutation (Storage.getAllRooms d) (rooms d) /\
  Sorted (fun a b => JsString.le (Room.name a) (Room.name b) = true)
         (Storage.getAllRooms d).
Proof.
  unfold Storage.getActiveRooms, Storage.getAllRooms.
  rewrite !orderBy_asc_rows.
  repeat split.
  - apply orderBy_rows_perm.
  - apply (orderBy_rows_sorted
             (fun x y => JsString.le (Room.name x) (Room.name y))).
    intros x y. apply le_total_false.
  - apply orderBy_rows_perm.
  - apply (orderBy_rows_sorted
             (fun x y => JsString.le (Room.name x) (Room.name y))).
    intros x y. apply le_total_false.
Qed.

End StorageProps.

Module RoomProps.
Import ListFacts.

Lemma with_rooms_same (d : Db) : with_rooms d (rooms d) (rooms_id_seq d) = d.
Proof. destruct d; reflexivity. Qed.

(** X5.  With keys below the sequence, [getRoom] finds the row
    [createRoom] returns under its key; the new room is listed by
    [getActiveRooms] unless it was created with [isActive = false], and
    the rooms listed before are still listed. *)
Theorem createRoom_then_getRoom (d : Db) (clock : Z) (room : InsertRoom) :
  (forall r, In r (rooms d) -> Room.id r < rooms_id_seq d) ->
  Storage.getRoom (fst (Storage.createRoom d clock room))
                  (Room.id (snd (Storage.createRoom d clock room))) =
    Some (snd (Storage.createRoom d clock room)) /\
  (ir_isActive room <> Some false ->
   In (snd (Storage.createRoom d clock room))
      (Storage.getActiveRooms (fst (Storage.createRoom d clock room)))) /\
  (forall r, In r (Storage.getActiveRooms d) ->
             In r (Storage.getActiveRooms (fst (Storage.createRoom d clock room)))).
Proof.
  intros Hfresh. split; [|split].
  - unfold Storage.getRoom. simpl. rewrite find_snoc.
    replace (find _ (rooms d)) with (@None Room.t).
    + rewrite Z.eqb_refl. reflexivity.
    + symmetry. apply find_none_iff. intros r Hr. apply Z.eqb_neq.
      specialize (Hfresh r Hr). lia.
  - intros Hact. apply TableFacts.getActiveRooms_In. simpl. split.
    + apply in_or_app. right. left. reflexivity.
    + destruct (ir_isActive room) as [[|]|];
        first [reflexivity | exfalso; apply Hact; reflexivity].
  - intros r Hr. apply TableFacts.getActiveRooms_In in Hr as [Hin Hact].
    apply TableFacts.getActiveRooms_In. simpl. split; auto.
    apply in_or_app. auto.
Qed.

Lemma createRoom_then_getRoom_witness :
  Storage.getRoom
    (fst (Storage.createRoom Sample.two_rooms 7
            (mkInsertRoom "Ceres" "2" None None))) 3 =
  Some (Room.mk 3 "Ceres" "2" [] true 7 7).
Proof.
  destruct (createRoom_then_getRoom Sample.two_rooms 7
              (mkInsertRoom "Ceres" "2" None None)) as [H _].
  - intros r [<-|[<-|[]]]; reflexivity.
  - exact H.
Defined.

Lemma getRoom_after_delete (d : Db) (id : Z) :
  Storage.getRoom (Storage.deleteRoom d id) id =
  option_map Storage.set_inactive (Storage.getRoom d id).
Proof.
  unfold Storage.getRoom. simpl.
  induction (rooms d) as [|r l IH]; simpl; auto.
  destruct (Room.id r =? id) eqn:E; simpl; rewrite E; auto.
Qed.

(** X6.  The row of a deleted room stays in the table: [getRoom] still
    finds it, inactive and otherwise unchanged; other keys are answered as
    before, and deleting twice is deleting once. *)
Theorem deleteRoom_keeps_row (d : Db) (id : Z) :
  Storage.getRoom (Storage.deleteRoom d id) id =
    option_map Storage.set_inactive (Storage.getRoom d id) /\
  (forall id', id' <> id ->
     Storage.getRoom (Storage.deleteRoom d id) id' = Storage.getRoom d id') /\
  Storage.deleteRoom (Storage.deleteRoom d id) id = Storage.deleteRoom d id.
Proof.
  split; [apply getRoom_after_delete|split].
  - intros id' Hne. unfold Storage.getRoom. simpl.
    induction (rooms d) as [|r l IH]; simpl; auto.
    destruct (Room.id r =? id) eqn:E; simpl.
    + apply Z.eqb_eq in E. rewrite E.
      apply not_eq_sym in Hne. apply Z.eqb_neq in Hne. rewrite Hne. exact IH.
    + destruct (Room.id r =? id'); auto.
  - unfold Storage.deleteRoom, with_rooms. cbn [rooms users bookings authConfig
      rooms_id_seq bookings_id_seq auth_config_id_seq]. f_equal.
    rewrite map_map. apply map_ext. intros r.
    destruct (Room.id r =? id) eqn:E; simpl; rewrite E; reflexivity.
Qed.

(** X7.  [updateRoom id] keeps the keys of [rooms] and their order and
    leaves rows with another key as they were; without a row of key [id]
    it returns nothing and changes nothing.  In particular it brings a
    deleted room back: after [deleteRoom id], an update that carries
    [isActive = true] makes the room of key [id] active again. *)
Theorem updateRoom_effect (d : Db) (clock id : Z) (p : PartialRoom) :
  map Room.id (rooms (fst (StorageMore.updateRoom d clock id p))) =
    map Room.id (rooms d) /\
  (forall r, In r (rooms d) -> Room.id r <> id ->
             In r (rooms (fst (StorageMore.updateRoom d clock id p)))) /\
  (Storage.getRoom d id = None ->
   StorageMore.updateRoom d clock id p = (d, None)) /\
  (pr_isActive p = Some true ->
   forall r, Storage.getRoom d id = Some r ->
     exists r',
       snd (StorageMore.updateRoom (Storage.deleteRoom d id) clock id p)
         = Some r' /\
       Room.id r' = id /\ Room.isActive r' = true /\
       In r' (Storage.getActiveRooms
                (fst (StorageMore.updateRoom (Storage.deleteRoom d id)
                        clock id p)))).
Proof.
  split; [|split; [|split]].
  - simpl. rewrite map_map. apply map_ext. intros r.
    destruct (Room.id r =? id); reflexivity.
  - intros r Hin Hne. simpl. apply in_map_iff. exists r. split; auto.
    apply Z.eqb_neq in Hne. rewrite Hne. reflexivity.
  - unfold Storage.getRoom. intros Hf.
    unfold StorageMore.updateRoom. rewrite (map_id_in _ (rooms d)).
    + rewrite Hf, with_rooms_same. reflexivity.
    + intros r Hr. rewrite (find_none _ _ Hf r Hr). reflexivity.
  - intros Hact r Hr.
    unfold StorageMore.updateRoom at 1. cbn [snd].
    rewrite (find_map_key (fun r => Room.id r =? id)).
    2:{ intros x. destruct (Room.id x =? id) eqn:E; simpl; exact E. }
    pose proof (getRoom_after_delete d id) as Hget.
    unfold Storage.getRoom in Hget, Hr. rewrite Hget, Hr. simpl.
    pose proof (find_some _ _ Hr) as [Hin Hid].
    rewrite Hid. eexists. split; [reflexivity|].
    split; [simpl; apply Z.eqb_eq; exact Hid|].
    split; [simpl; rewrite Hact; reflexivity|].
    apply TableFacts.getActiveRooms_In. split.
    + simpl. rewrite map_map. apply in_map_iff. exists r. split; auto.
      rewrite Hid. simpl. rewrite Hid. reflexivity.
    + simpl. rewrite Hact. reflexivity.
Qed.

Lemma updateRoom_effect_witness :
  exists r',
    snd (StorageMore.updateRoom (Storage.deleteRoom Sample.two_rooms 1) 9 1
           (mkPartialRoom None None None (Some true))) = Some r' /\
    Room.id r' = 1 /\ Room.isActive r' = true /\
    In r' (Storage.getActiveRooms
             (fst (StorageMore.updateRoom (Storage.deleteRoom Sample.two_rooms 1)
                     9 1 (mkPartialRoom None None None (Some true))))).
Proof.
  destruct (updateRoom_effect Sample.two_rooms 9 1
              (mkPartialRoom None None None (Some true))) as [_ [_ [_ H]]].
  apply (H eq_refl (Sample.room 1 "Atlas" true)). reflexivity.
Defined.

End RoomProps.

Module QueryProps.
Import ListFacts.

Lemma ltb_false_neq (a b : string) :
  String.ltb a b = false -> a <> b -> String.ltb b a = true.
Proof.
  unfold String.ltb. rewrite (String.compare_antisym b a).
  destruct (String.compare a b) eqn:E; simpl; try discriminate; auto.
  intros _ H. apply String.compare_eq_iff in E. contradiction.
Qed.

Lemma date_desc_total (a b : Booking.t) :
  StorageMore.date_desc_start_asc a b = false ->
  StorageMore.date_desc_start_asc b a = true.
Proof.
  unfold StorageMore.date_desc_start_asc, JsString.gt.
  rewrite orb_false_iff, andb_false_iff, orb_true_iff, andb_true_iff.
  intros [H1 H2].
  destruct (String.eqb_spec (Booking.date a) (Booking.date b)) as [E|E].
  - right. rewrite E, String.eqb_refl. split; auto.
    destruct H2 as [H2|H2]; [discriminate|].
    apply StorageProps.le_total_false. exact H2.
  - left. apply ltb_false_neq; auto.
Qed.

Lemma date_asc_total (a b : Booking.t) :
  StorageMore.date_asc_start_asc a b = false ->
  StorageMore.date_asc_start_asc b a = true.
Proof.
  unfold StorageMore.date_asc_start_asc, JsString.lt.
  rewrite orb_false_iff, andb_false_iff, orb_true_iff, andb_true_iff.
  intros [H1 H2].
  destruct (String.eqb_spec (Booking.date a) (Booking.date b)) as [E|E].
  - right. rewrite E, String.eqb_refl. split; auto.
    destruct H2 as [H2|H2]; [discriminate|].
    apply StorageProps.le_total_false. exact H2.
  - left. apply ltb_false_neq; auto.
Qed.

Lemma bookings_of_details (d : Db) (l : list Booking.t) :
  map bwd_booking (map (StorageMore.with_details d) l) = l.
Proof. rewrite map_map. simpl. apply map_id. Qed.

Lemma listed_rows (d : Db) (userId : string) :
  Permutation (map bwd_booking (StorageMore.getUserBookings d userId))
    (filter (fun b => String.eqb (Booking.userId b) userId) (bookings d)) /\
  Permutation (map bwd_booking (StorageMore.getAllBookings d)) (bookings d).
Proof.
  unfold StorageMore.getUserBookings, StorageMore.getAllBookings.
  rewrite !bookings_of_details. split; apply orderBy_rows_perm.
Qed.

(** X8.  [getUserBookings userId] returns the bookings whose [userId] is
    the given one, each once per row and joined with its user and room,
    later dates first and, within a date, earlier start times first;
    [getAllBookings] returns all bookings in the same order. *)
Theorem bookings_by_user (d : Db) (userId : string) :
  Permutation (map bwd_booking (StorageMore.getUserBookings d userId))
    (filter (fun b => String.eqb (Booking.userId b) userId) (bookings d)) /\
  Sorted (fun a b => StorageMore.date_desc_start_asc a b = true)
         (map bwd_booking (StorageMore.getUserBookings d userId)) /\
  Permutation (map bwd_booking (StorageMore.getAllBookings d)) (bookings d) /\
  Sorted (fun a b => StorageMore.date_desc_start_asc a b = true)
         (map bwd_booking (StorageMore.getAllBookings d)) /\
  (forall x, In x (StorageMore.getUserBookings d userId) ->
             Booking.userId (bwd_booking x) = userId /\
             x = StorageMore.with_details d (bwd_booking x)).
Proof.
  unfold StorageMore.getUserBookings, StorageMore.getAllBookings.
  rewrite !bookings_of_details.
  split; [apply orderBy_rows_perm|].
  split; [apply orderBy_rows_sorted; exact date_desc_total|].
  split; [apply orderBy_rows_perm|].
  split; [apply orderBy_rows_sorted; exact date_desc_total|].
  intros x Hx. apply in_map_iff in Hx as [b [<- Hb]]. simpl. split; auto.
  apply (Permutation_in _ (orderBy_rows_perm _ _)) in Hb.
  apply filter_In in Hb as [_ Hb]. apply String.eqb_eq. exact Hb.
Qed.

(** X9.  [getRoomBookings roomId date] returns the bookings of the room,
    restricted to the date when one is given; a missing or empty date
    restricts nothing.  The rows come in ascending order of date and
    start time. *)
Theorem bookings_by_room (d : Db) (roomId : Z) (date : option string) :
  Permutation (map bwd_booking (StorageMore.getRoomBookings d roomId date))
    (filter (fun b => (Booking.roomId b =? roomId) &&
                      match date with
                      | Some day => if JsString.truthy day
                                    then String.eqb (Booking.date b) day
                                    else true
                      | None => true
                      end) (bookings d)) /\
  Sorted (fun a b => StorageMore.date_asc_start_asc a b = true)
         (map bwd_booking (StorageMore.getRoomBookings d roomId date)).
Proof.
  unfold StorageMore.getRoomBookings. rewrite !bookings_of_details. split.
  - rewrite orderBy_rows_perm.
    replace (filter _ (bookings d)) with
      (filter (fun b => (Booking.roomId b =? roomId) &&
                 match date with
                 | Some day => if JsString.truthy day
                               then String.eqb (Booking.date b) day
                               else true
                 | None => true
                 end) (bookings d)); auto.
    apply filter_ext. intros b.
    destruct date as [day|]; [destruct (JsString.truthy day)|]; simpl;
      rewrite ?andb_true_r; reflexivity.
  - apply orderBy_rows_sorted. exact date_asc_total.
Qed.

End QueryProps.

(* ================================================================== *)
(** * Further properties of the availability check and the routes *)

Module InvariantProps.
Import JsString JsStringFacts OverlapFacts AvailabilityFacts.


(** X10.  Removing or cancelling a booking never takes availability
    away: a request that was available stays available after
    [deleteBooking], and after an [updateBooking] that only sets the status
    to ["cancelled"]. *)
Theorem availability_monotone (d : Db) (roomId : Z) (date s e : string)
    (ex : option Z) (clock id : Z) :
  Storage.checkRoomAvailability d roomId date s e ex = true ->
  Storage.checkRoomAvailability (Storage.deleteBooking d id)
    roomId date s e ex = true /\
  Storage.checkRoomAvailability
    (fst (Storage.updateBooking d clock id
            (mkPartialBooking None None None None None None None None
                              (Some "cancelled"))))
    roomId date s e ex = true.
Proof.
  intros H. rewrite checkRoomAvailability_true in H. split.
  - apply checkRoomAvailability_true. intros b Hin. simpl in Hin.
    apply filter_In in Hin as [Hin _]. apply H. exact Hin.
  - apply checkRoomAvailability_true. intros b Hin Hr Hd Hst. simpl in Hin.
    apply in_map_iff in Hin as [b0 [Hb Hin]].
    destruct (Booking.id b0 =? id).
    + subst b. simpl in Hst. discriminate.
    + subst b. apply H; auto.
Qed.

Lemma availability_monotone_witness :
  Storage.checkRoomAvailability (Storage.deleteBooking Sample.morning_db 1)
    1 Sample.day "10:00" "11:00" None = true.
Proof.
  apply (availability_monotone Sample.morning_db 1 Sample.day
           "10:00" "11:00" None 0 1).
  reflexivity.
Defined.



End InvariantProps.

Module PutProps.
Import JsString JsStringFacts OverlapFacts AvailabilityFacts ListFacts.





End PutProps.

Module PutProps2.
Import JsString JsStringFacts.


(** X13.  A [PUT] whose body names only a status runs no availability
    check: for the owner or an admin it answers 200 and sets the status of
    the booking, whatever else the table holds; so a cancelled booking is
    confirmed again without being checked against the bookings made in
    the meantime. *)
Theorem status_change_skips_check (env : Env) (w : World) (userId : string)
    (bookingId : Z) (req : BookingBody) (st : string)
    (existing : BookingWithDetails) :
  Storage.getBooking (db w) bookingId = Some existing ->
  Spec.may_mutate w userId (bwd_booking existing) ->
  Inv.status_only req ->
  rb_status req = Present st ->
  let p := mkPartialBooking None None None None None None None None (Some st) in
  Routes.put_booking env w userId bookingId req =
    (mkWorld (fst (Storage.updateBooking (db w) (now env) bookingId p))
             (console w),
     mkResponse 200
       (BookingJson (Storage.booking_set (now env) p (bwd_booking existing))))
  /\ Booking.status (Storage.booking_set (now env) p (bwd_booking existing))
     = st.
Proof.
  intros Hg Hm Hso Hst p. split; [|reflexivity].
  pose proof (StorageProps.updateBooking_returns (db w) (now env) bookingId p)
    as Hret.
  rewrite Hg in Hret. simpl in Hret.
  unfold Routes.put_booking. rewrite Hg.
  apply RouteFacts.guard_false_iff in Hm. rewrite Hm.
  destruct Hso as [H1 [H2 [H3 [H4 [H5 [H6 [H7 H8]]]]]]].
  unfold Zod.insertBookingSchema_partial_parse.
  rewrite H1, H2, H3, H4, H5, H6, H7, H8, Hst. simpl.
  fold p. unfold Storage.updateBooking in Hret. simpl in Hret.
  rewrite Hret. reflexivity.
Qed.

Lemma status_change_skips_check_witness :
  status (snd (Routes.put_booking Sample.env0
                 (mkWorld Sample.morning_db []) "u1" 1
                 (Sample.only_status "cancelled"))) = 200.
Proof.
  destruct (status_change_skips_check Sample.env0
              (mkWorld Sample.morning_db []) "u1" 1
              (Sample.only_status "cancelled") "cancelled"
              (mkBookingWithDetails
                 (Sample.booking 1 "u1" 1 "09:00" "10:00" "confirmed")
                 None None)) as [H _].
  - reflexivity.
  - left. reflexivity.
  - repeat split.
  - reflexivity.
  - rewrite H. reflexivity.
Defined.

End PutProps2.

Module StatsProps.




End StatsProps.

(* ================================================================== *)
(** * Further properties of the LDAP login *)

Module LdapProps.
Import ListFacts.

Lemma getUser_other_key (l : list User.t) (clock : Z) (u : Storage.UserData)
    (id : string) :
  id <> Storage.ud_id u ->
  find (fun x => String.eqb (User.id x) id)
       (map (fun x => if String.eqb (User.id x) (Storage.ud_id u)
                      then Storage.user_set clock u x else x) l) =
  find (fun x => String.eqb (User.id x) id) l.
Proof.
  intros Hne. apply not_eq_sym in Hne. apply String.eqb_neq in Hne.
  induction l as [|x l IH]; simpl; auto.
  destruct (String.eqb (User.id x) (Storage.ud_id u)) eqn:E; simpl.
  - apply String.eqb_eq in E. rewrite E, Hne. exact IH.
  - destruct (String.eqb (User.id x) id); auto.
Qed.

Lemma getUser_after_upsert (d d' : Db) (clock : Z) (u : Storage.UserData)
    (r : User.t) :
  Storage.createOrUpdateUser d clock u = Ok (d', r) ->
  Storage.getUser d' (Storage.ud_id u) = Some r.
Proof.
  unfold Storage.createOrUpdateUser, Storage.getUser.
  destruct (Storage.unique_violation (users d) u); [discriminate|].
  destruct (find _ (users d)) as [old|] eqn:Hf; intros [= <- <-]; simpl.
  - pose proof (find_some _ _ Hf) as [_ Hid].
    rewrite (find_map_key (fun x => String.eqb (User.id x) (Storage.ud_id u))).
    + rewrite Hf. simpl. rewrite Hid. reflexivity.
    + intros x. destruct (String.eqb (User.id x) (Storage.ud_id u)) eqn:E;
        simpl; auto. apply String.eqb_refl.
  - rewrite find_snoc, Hf. simpl. rewrite String.eqb_refl. reflexivity.
Qed.

(** X15.  A successful [createOrUpdateUser] can be read back: [getUser]
    finds the returned row under its key and answers every other key as
    before.  An existing row keeps its password, picture and creation
    time; a new row is appended without a password. *)
Theorem upsert_then_getUser (d d' : Db) (clock : Z) (u : Storage.UserData)
    (r : User.t) :
  Storage.createOrUpdateUser d clock u = Ok (d', r) ->
  Storage.getUser d' (Storage.ud_id u) = Some r /\
  (forall id, id <> Storage.ud_id u ->
              Storage.getUser d' id = Storage.getUser d id) /\
  match Storage.getUser d (Storage.ud_id u) with
  | Some old =>
      length (users d') = length (users d) /\
      User.password r = User.password old /\
      User.profileImageUrl r = User.profileImageUrl old /\
      User.createdAt r = User.createdAt old /\
      User.updatedAt r = clock
  | None => users d' = (users d ++ [r])%list /\ User.password r = None
  end.
Proof.
  unfold Storage.createOrUpdateUser, Storage.getUser.
  destruct (Storage.unique_violation (users d) u); [discriminate|].
  destruct (find _ (users d)) as [old|] eqn:Hf; intros [= <- <-]; simpl.
  - pose proof (find_some _ _ Hf) as [_ Hid].
    split; [|split].
    + rewrite (find_map_key (fun x => String.eqb (User.id x) (Storage.ud_id u))).
      * rewrite Hf. simpl. rewrite Hid. reflexivity.
      * intros x. destruct (String.eqb (User.id x) (Storage.ud_id u)) eqn:E;
          simpl; auto. apply String.eqb_refl.
    + intros id Hne. apply getUser_other_key. exact Hne.
    + rewrite length_map. auto.
  - split; [|split].
    + rewrite find_snoc, Hf. simpl. rewrite String.eqb_refl. reflexivity.
    + intros id Hne. rewrite find_snoc. simpl.
      apply not_eq_sym in Hne. apply String.eqb_neq in Hne. rewrite Hne.
      destruct (find (fun x : User.t => String.eqb (User.id x) id) (users d));
        reflexivity.
    + auto.
Qed.

Lemma upsert_then_getUser_witness :
  exists d' r,
    Storage.createOrUpdateUser Sample.ldap_db 3
      (AuthService.userData_of "ann" Sample.ann) = Ok (d', r) /\
    Storage.getUser d' "ann" = Some r.
Proof.
  eexists. eexists. split; [reflexivity|].
  eapply (upsert_then_getUser Sample.ldap_db _ 3
            (AuthService.userData_of "ann" Sample.ann)).
  reflexivity.
Defined.

(** X16.  [authenticateLDAP] writes to the database only when it
    resolves to a user: on every other outcome the database is the one it
    started from.  The user it resolves to is stored under its key with
    [role = "user"] and [authType = "ldap"], whatever role a row with that
    key had before, and the other tables are untouched. *)
Theorem ldap_writes_only_on_success (penv : ProcessEnv) (dir : Directory)
    (clock : Z) (d : Db) (username password : string) :
  match AuthService.authenticateLDAP penv dir clock d username password with
  | (d', Ok (Some user)) =>
      Storage.getUser d' (User.id user) = Some user /\
      User.role user = "user" /\ User.authType user = "ldap" /\
      User.username user = Some username /\
      rooms d' = rooms d /\ bookings d' = bookings d /\
      authConfig d' = authConfig d
  | (d', _) => d' = d
  end.
Proof.
  unfold AuthService.authenticateLDAP.
  destruct (Storage.getActiveAuthConfig d) as [c|]; auto.
  destruct (negb _); auto.
  destruct (AuthConfig.config c); auto.
  all: destruct (negb (createClient _ _)); auto.
  all: destruct (negb (AuthService.admin_bind _ _ _)); auto.
  all: destruct (AuthService.user_search _ _ _ _); auto.
  all: destruct (AuthService.userEntry_of _) as [entry|]; auto.
  all: destruct (negb (AuthService.user_bind _ _ _)); auto.
  all: destruct (Storage.createOrUpdateUser _ _ _) as [[d' user]|] eqn:Hup;
    auto.
  all: pose proof (getUser_after_upsert _ _ _ _ _ Hup) as Hget.
  all: pose proof (LdapFacts.createOrUpdateUser_ok _ _ _ _ _ Hup)
    as [_ [Hid [Hty [Hro [Hr [Hb Ha]]]]]].
  all: rewrite Hid; repeat split; auto.
  all: revert Hup; unfold Storage.createOrUpdateUser;
    destruct (Storage.unique_violation _ _); [discriminate|];
    destruct (find _ (users d)); intros [= _ <-]; reflexivity.
Qed.

(** X17.  When both binds and the search succeed but another row of
    [users] (one with a different key) already holds the login name or
    the mail address, [authenticateLDAP] rejects with the error of the
    database and leaves the database unchanged. *)
Theorem ldap_login_refused_on_clash (penv : ProcessEnv) (dir : Directory)
    (clock : Z) (d : Db) (username password : string) (c : AuthConfig.t)
    (entries : list LdapEntry) (userEntry : LdapEntry) (other : User.t) :
  Storage.getActiveAuthConfig d = Some c ->
  AuthConfig.authType c = "ldap" ->
  AuthConfig.config c <> JNull ->
  createClient dir (AuthService.url penv (AuthConfig.config c)) = true ->
  AuthService.admin_bind penv dir (AuthConfig.config c) = true ->
  AuthService.user_search penv dir (AuthConfig.config c) username =
    SearchEnd entries ->
  AuthService.userEntry_of entries = Some userEntry ->
  AuthService.user_bind dir userEntry password = true ->
  In other (users d) ->
  User.id other <>
    Storage.ud_id (AuthService.userData_of username userEntry) ->
  (User.username other = Some username \/
   User.email other =
     Some (Storage.ud_email (AuthService.userData_of username userEntry))) ->
  AuthService.authenticateLDAP penv dir clock d username password =
  (d, Throw (DbError "duplicate key value violates unique constraint")).
Proof.
  intros Hc Ht Hn Hcl Hb Hs He Hu Hin Hid Hclash.
  assert (Hv : Storage.unique_violation (users d)
                 (AuthService.userData_of username userEntry) = true).
  { apply existsb_exists. exists other. split; auto.
    apply String.eqb_neq in Hid. rewrite Hid. simpl.
    destruct Hclash as [->| ->]; simpl; rewrite String.eqb_refl; auto.
    apply orb_true_r. }
  unfold AuthService.authenticateLDAP.
  rewrite Hc. apply String.eqb_eq in Ht. rewrite Ht. simpl.
  destruct (AuthConfig.config c) eqn:Hcfg; [congruence| |];
    rewrite Hcl, Hb, Hs, He, Hu; simpl;
    unfold Storage.createOrUpdateUser; rewrite Hv; reflexivity.
Qed.

Lemma ldap_login_refused_on_clash_witness :
  AuthService.authenticateLDAP Sample.no_env Sample.directory 0
    Sample2.mixed_db "ann" "ann-secret" =
  (Sample2.mixed_db,
   Throw (DbError "duplicate key value violates unique constraint")).
Proof.
  apply (ldap_login_refused_on_clash Sample.no_env Sample.directory 0
           Sample2.mixed_db "ann" "ann-secret"
           (AuthConfig.mk 1 "ldap" true
              (JObject [("url", "ldap://directory:389");
                        ("bindDN", "cn=admin,dc=company,dc=com");
                        ("bindPassword", "service-secret");
                        ("searchBase", "ou=users,dc=company,dc=com")]) 0 0)
           [Sample.ann] Sample.ann
           (User.mk "user-1700000000000" (Some "ann") (Some "ann@example.org")
                    (Some "$2a$12$hash") None None None "user" "jwt" 0 0)).
  - reflexivity.
  - reflexivity.
  - intro H. discriminate H.
  - reflexivity.
  - reflexivity.
  - reflexivity.
  - reflexivity.
  - reflexivity.
  - left. reflexivity.
  - intro H. discriminate H.
  - left. reflexivity.
Defined.




End LdapProps.

(* ================================================================== *)
(** * Further properties of the routes *)

Module RouteProps.
Import ListFacts.

(** X19.  The three room mutations are for admins only: for a requester
    whose user row is missing or has another role than ["admin"], [POST
    /api/rooms], [PUT /api/rooms/:id] and [DELETE /api/rooms/:id] answer
    403 before the body is looked at and leave the server state
    unchanged. *)
Theorem room_mutations_admin_only (env : Env) (w : World) (userId : string)
    (roomId : Z) (req : RoomBody) :
  Routes.is_admin (Storage.getUser (db w) userId) = false ->
  RoomRoutes.post_rooms env w userId req = (w, RoomRoutes.admin_required) /\
  RoomRoutes.put_room env w userId roomId req = (w, RoomRoutes.admin_required)
  /\
  RoomRoutes.delete_room w userId roomId = (w, RoomRoutes.admin_required).
Proof.
  intros H.
  unfold RoomRoutes.post_rooms, RoomRoutes.put_room, RoomRoutes.delete_room.
  rewrite H. simpl. auto.
Qed.

Lemma room_mutations_admin_only_witness :
  RoomRoutes.delete_room Sample.staffed "u1" 1 =
  (Sample.staffed, RoomRoutes.admin_required).
Proof.
  apply (room_mutations_admin_only Sample.env0 Sample.staffed "u1" 1
           (mkRoomBody Absent Absent Absent Absent)).
  reflexivity.
Defined.

(** X20.  [GET /api/bookings] shows a requester who is not an admin the
    bookings that carry the requester's [userId], all of them and no
    others; an admin is shown every booking of the table. *)
Theorem booking_list_by_role (w : World) (userId : string) :
  exists l,
    RoomRoutes.get_bookings w userId = (w, mkReply 200 (BookingsPayload l)) /\
    (Routes.is_admin (Storage.getUser (db w) userId) = false ->
     forall b, In b (map bwd_booking l) <->
               In b (bookings (db w)) /\ Booking.userId b = userId) /\
    (Routes.is_admin (Storage.getUser (db w) userId) = true ->
     forall b, In b (map bwd_booking l) <-> In b (bookings (db w))).
Proof.
  unfold RoomRoutes.get_bookings.
  destruct (QueryProps.listed_rows (db w) userId) as [Hu Ha].
  destruct (Routes.is_admin _); eexists; (split; [reflexivity|]); split;
    try discriminate; intros _ b.
  - split; intro H.
    + apply (Permutation_in _ Ha). exact H.
    + apply (Permutation_in _ (Permutation_sym Ha)). exact H.
  - split; intro H.
    + apply (Permutation_in _ Hu) in H. apply filter_In in H as [H1 H2].
      apply String.eqb_eq in H2. auto.
    + apply (Permutation_in _ (Permutation_sym Hu)).
      apply filter_In. destruct H as [H1 H2]. split; auto.
      apply String.eqb_eq. exact H2.
Qed.

(** X21.  A [DELETE /api/bookings/:id] by the owner or an admin answers
    204 and removes the row for good: the booking is no longer found,
    every other booking is found as before, and the same request sent
    again is answered 404 without any effect. *)
Theorem delete_booking_twice (w : World) (userId : string) (bookingId : Z)
    (existing : BookingWithDetails) :
  Storage.getBooking (db w) bookingId = Some existing ->
  Spec.may_mutate w userId (bwd_booking existing) ->
  let w1 := fst (Routes.delete_booking w userId bookingId) in
  snd (Routes.delete_booking w userId bookingId) = mkResponse 204 NoContent /\
  Storage.getBooking (db w1) bookingId = None /\
  (forall id, id <> bookingId ->
              Storage.getBooking (db w1) id = Storage.getBooking (db w) id) /\
  Routes.delete_booking w1 userId bookingId =
    (w1, mkResponse 404 (MessageJson "Booking not found")).
Proof.
  intros Hg Hm. cbv zeta.
  apply RouteFacts.guard_false_iff in Hm.
  destruct (StorageProps.getBooking_after_delete (db w) bookingId)
    as [Hnone Hother].
  assert (H1 : Routes.delete_booking w userId bookingId =
               (mkWorld (Storage.deleteBooking (db w) bookingId) (console w),
                mkResponse 204 NoContent)).
  { unfold Routes.delete_booking. rewrite Hg, Hm. reflexivity. }
  rewrite H1. cbn [fst snd db].
  split; [reflexivity|]. split; [exact Hnone|]. split; [exact Hother|].
  unfold Routes.delete_booking. cbn [db]. rewrite Hnone. reflexivity.
Qed.

Lemma delete_booking_twice_witness :
  Storage.getBooking
    (db (fst (Routes.delete_booking (mkWorld Sample.morning_db []) "u1" 1)))
    1 = None.
Proof.
  destruct (delete_booking_twice (mkWorld Sample.morning_db []) "u1" 1
              (mkBookingWithDetails
                 (Sample.booking 1 "u1" 1 "09:00" "10:00" "confirmed")
                 None None)) as [_ [H _]].
  - reflexivity.
  - left. reflexivity.
  - exact H.
Defined.

(** X22.  [POST /api/bookings] never looks at the [rooms] table before it
    answers: with any other content of [rooms] the answer and the
    bookings written are the same, so a booking is accepted for a room
    that was deleted or that never existed. *)
Theorem post_bookings_ignores_rooms (env : Env) (w : World) (userId : string)
    (req : BookingBody) (rs : list Room.t) (seq : Z) :
  let w' := mkWorld (with_rooms (db w) rs seq) (console w) in
  snd (Routes.post_bookings env w' userId req) =
    snd (Routes.post_bookings env w userId req) /\
  bookings (db (fst (Routes.post_bookings env w' userId req))) =
    bookings (db (fst (Routes.post_bookings env w userId req))).
Proof.
  cbv zeta. unfold Routes.post_bookings.
  destruct (Routes.validate_new userId req) as [v|[]]; simpl; auto.
  rewrite !AvailabilityFacts.selected_rows. simpl.
  destruct (Storage.scan_conflicts _ _ _ _); simpl; auto.
Qed.

End RouteProps.

(* ================================================================== *)
(** * Properties of the auth routes *)

Module AuthProps.
Import ListFacts.

Lemma string_min_ok (n : nat) (path : string) (f : Field string) (s : string) :
  AuthRoutes.string_min n path f = Ok s <->
  f = Present s /\ (n <= String.length s)%nat.
Proof.
  unfold AuthRoutes.string_min. destruct f as [| |a]; simpl.
  - split; [discriminate | intros [H _]; discriminate].
  - split; [discriminate | intros [H _]; discriminate].
  - destruct (Nat.leb n (String.length a)) eqn:E.
    + apply Nat.leb_le in E. split.
      * intros [= ->]. auto.
      * intros [[= ->] _]. reflexivity.
    + apply Nat.leb_gt in E. split; [discriminate|].
      intros [[= ->] H]. lia.
Qed.

Lemma loginSchema_ok (b : LoginBody) (username password : string) :
  AuthRoutes.loginSchema_parse b = Ok (username, password) <->
  lb_username b = Present username /\ (1 <= String.length username)%nat /\
  lb_password b = Present password /\ (1 <= String.length password)%nat.
Proof.
  unfold AuthRoutes.loginSchema_parse. split.
  - destruct (AuthRoutes.string_min 1 "username" (lb_username b)) as [u|]
      eqn:Hu; simpl; [|discriminate].
    destruct (AuthRoutes.string_min 1 "password" (lb_password b)) as [p|]
      eqn:Hp; simpl; [|discriminate].
    intros [= -> ->]. apply string_min_ok in Hu, Hp. tauto.
  - intros [H1 [H2 [H3 H4]]].
    rewrite (proj2 (string_min_ok 1 "username" _ username) (conj H1 H2)).
    simpl.
    rewrite (proj2 (string_min_ok 1 "password" _ password) (conj H3 H4)).
    reflexivity.
Qed.

(** X23.  Outside LDAP mode, [POST /api/auth/login] never writes, and it
    answers 200 exactly when the body is well formed, a user row carries
    the name, that row has a non-empty password hash which the supplied
    password matches, and the session could be set up.  In particular a
    row without password, as the LDAP login creates it, cannot log in
    this way. *)
Theorem login_by_password (ae : AuthEnv) (d : Db) (body : LoginBody) :
  AuthRoutes.current_authType d <> "ldap" ->
  fst (AuthRoutes.login ae d body) = d /\
  (code (snd (AuthRoutes.login ae d body)) = 200 <->
   exists username password user hash,
     AuthRoutes.loginSchema_parse body = Ok (username, password) /\
     Storage.getUserByUsername d username = Some user /\
     User.password user = Some hash /\ hash <> "" /\
     bcrypt_compare (ae_crypto ae) password hash = true /\
     ae_session_ok ae = true).
Proof.
  intros Hmode. apply String.eqb_neq in Hmode.
  unfold AuthRoutes.login. rewrite Hmode.
  destruct (AuthRoutes.loginSchema_parse body) as [[username password]|e]
    eqn:Hp.
  2:{ split; [destruct e; reflexivity|]. split.
      - destruct e; simpl; discriminate.
      - intros [u [p [usr [h [H _]]]]]. discriminate. }
  destruct (Storage.getUserByUsername d username) as [user|] eqn:Hu.
  2:{ split; [reflexivity|]. split; [simpl; discriminate|].
      intros [u [p [usr [h [H [H' _]]]]]]. injection H as <- <-.
      rewrite Hu in H'. discriminate. }
  destruct (User.password user) as [hash|] eqn:Hh.
  2:{ split; [reflexivity|]. split; [simpl; discriminate|].
      intros [u [p [usr [h [H [H' [H'' _]]]]]]]. injection H as <- <-.
      rewrite Hu in H'. injection H' as <-. rewrite Hh in H''. discriminate. }
  destruct (JsString.truthy hash) eqn:Ht; simpl.
  2:{ split; [reflexivity|]. split; [simpl; discriminate|].
      intros [u [p [usr [h [H [H' [H'' [Hne _]]]]]]]]. injection H as <- <-.
      rewrite Hu in H'. injection H' as <-. rewrite Hh in H''.
      injection H'' as <-. destruct hash; [contradiction | discriminate]. }
  destruct (bcrypt_compare (ae_crypto ae) password hash) eqn:Hc.
  2:{ split; [reflexivity|]. split; [simpl; discriminate|].
      intros [u [p [usr [h [H [H' [H'' [_ [Hc' _]]]]]]]]]. injection H as <- <-.
      rewrite Hu in H'. injection H' as <-. rewrite Hh in H''.
      injection H'' as <-. congruence. }
  destruct (ae_session_ok ae) eqn:Hs.
  2:{ split; [reflexivity|]. split; [simpl; discriminate|].
      intros [u [p [usr [h [_ [_ [_ [_ [_ H]]]]]]]]]. discriminate. }
  split; [reflexivity|]. split; [intros _|reflexivity].
  exists username, password, user, hash. repeat split; auto.
  intros ->. discriminate.
Qed.

Lemma login_by_password_witness :
  code (snd (AuthRoutes.login Sample3.auth_env Sample3.local_db
               (mkLoginBody (Present "bob") (Present "bob-secret")))) = 200.
Proof.
  destruct (login_by_password Sample3.auth_env Sample3.local_db
              (mkLoginBody (Present "bob") (Present "bob-secret")))
    as [_ [_ H]].
  - intro E. discriminate E.
  - apply H.
    exists "bob", "bob-secret",
      (User.mk "user-1" (Some "bob") (Some "bob@company.com")
               (Some "H(bob-secret)") None None None "user" "jwt" 0 0),
      "H(bob-secret)".
    repeat split; try reflexivity. intro E. discriminate E.
Defined.

(** X24.  In LDAP mode a directory that refuses the service account
    turns every well-formed login into a 500, not a 401: the rejection of
    [authenticateLDAP] reaches the handler's [catch]. *)
Theorem login_ldap_service_failure (ae : AuthEnv) (d : Db) (body : LoginBody)
    (c : AuthConfig.t) (username password : string) :
  Storage.getActiveAuthConfig d = Some c ->
  AuthConfig.authType c = "ldap" ->
  AuthConfig.config c <> JNull ->
  createClient (ae_directory ae)
    (AuthService.url (ae_process ae) (AuthConfig.config c)) = true ->
  AuthService.admin_bind (ae_process ae) (ae_directory ae)
    (AuthConfig.config c) = false ->
  AuthRoutes.loginSchema_parse body = Ok (username, password) ->
  AuthRoutes.login ae d body =
    (d, mkReply 500 (MessagePayload "Login failed")).
Proof.
  intros Hc Ht Hn Hcl Hb Hp.
  unfold AuthRoutes.login, AuthRoutes.current_authType.
  rewrite Hp, Hc, Ht. simpl.
  unfold AuthService.authenticateLDAP. rewrite Hc, Ht. simpl.
  destruct (AuthConfig.config c); [congruence| |]; rewrite Hcl, Hb; reflexivity.
Qed.

Lemma login_ldap_service_failure_witness :
  AuthRoutes.login Sample3.auth_env_locked Sample.ldap_db
    (mkLoginBody (Present "ann") (Present "ann-secret")) =
  (Sample.ldap_db, mkReply 500 (MessagePayload "Login failed")).
Proof.
  apply (login_ldap_service_failure Sample3.auth_env_locked Sample.ldap_db
           (mkLoginBody (Present "ann") (Present "ann-secret"))
           (AuthConfig.mk 1 "ldap" true
              (JObject [("url", "ldap://directory:389");
                        ("bindDN", "cn=admin,dc=company,dc=com");
                        ("bindPassword", "service-secret");
                        ("searchBase", "ou=users,dc=company,dc=com")]) 0 0)
           "ann" "ann-secret").
  - reflexivity.
  - reflexivity.
  - intro H. discriminate H.
  - reflexivity.
  - reflexivity.
  - reflexivity.
Defined.

Lemma registerSchema_fields (is_email : string -> bool) (b : RegisterBody)
    (data : AuthRoutes.Registration) :
  AuthRoutes.registerSchema_parse is_email b = Ok data ->
  gb_username b = Present (AuthRoutes.rg_username data) /\
  (3 <= String.length (AuthRoutes.rg_username data))%nat /\
  gb_password b = Present (AuthRoutes.rg_password data) /\
  (6 <= String.length (AuthRoutes.rg_password data))%nat /\
  gb_email b = Present (AuthRoutes.rg_email data) /\
  is_email (AuthRoutes.rg_email data) = true.
Proof.
  unfold AuthRoutes.registerSchema_parse.
  destruct (AuthRoutes.string_min 3 "username" (gb_username b)) as [u|] eqn:Hu;
    simpl; [|discriminate].
  destruct (gb_email b) as [| |m] eqn:Hm; simpl; try discriminate.
  destruct (is_email m) eqn:He; simpl; [|discriminate].
  destruct (AuthRoutes.string_min 6 "password" (gb_password b)) as [pw|] eqn:Hp;
    simpl; [|discriminate].
  destruct (Zod.optional "firstName" (gb_firstName b)); simpl; [|discriminate].
  destruct (Zod.optional "lastName" (gb_lastName b)); simpl; [|discriminate].
  intros [= <-]. simpl.
  apply string_min_ok in Hu, Hp. tauto.
Qed.

(** What a registration that is answered 201 has done. *)
Lemma register_created (ae : AuthEnv) (d : Db) (body : RegisterBody) :
  code (snd (AuthRoutes.register ae d body)) = 201 ->
  exists data user,
    AuthRoutes.registerSchema_parse (ae_is_email ae) body = Ok data /\
    AuthRoutes.current_authType d = "jwt" /\
    Storage.getUserByUsername d (AuthRoutes.rg_username data) = None /\
    users (fst (AuthRoutes.register ae d body)) = (users d ++ [user])%list /\
    authConfig (fst (AuthRoutes.register ae d body)) = authConfig d /\
    User.username user = Some (AuthRoutes.rg_username data) /\
    User.password user =
      Some (bcrypt_hash (ae_crypto ae) (AuthRoutes.rg_password data)) /\
    User.role user = "user" /\ User.authType user = "jwt".
Proof.
  unfold AuthRoutes.register.
  destruct (String.eqb (AuthRoutes.current_authType d) "jwt") eqn:Hm; simpl;
    [|discriminate].
  apply String.eqb_eq in Hm.
  destruct (AuthRoutes.registerSchema_parse (ae_is_email ae) body)
    as [data|[]] eqn:Hp; simpl; try discriminate.
  destruct (Storage.getUserByUsername d (AuthRoutes.rg_username data)) eqn:Hu;
    simpl; [discriminate|].
  unfold StorageMore.createUser.
  destruct (StorageMore.duplicate_user _ _); simpl; [discriminate|].
  intros _. eexists. eexists. repeat split; auto.
Qed.

(** X25.  [POST /api/auth/register] writes only when it answers 201, and
    then it has appended exactly one row to [users]: the name of the body,
    the hash of its password, [role = "user"] and [authType = "jwt"].  It
    never creates an admin, and it answers 201 only in password mode and
    for a name no row carries. *)
Theorem register_effect (ae : AuthEnv) (d : Db) (body : RegisterBody) :
  (code (snd (AuthRoutes.register ae d body)) <> 201 ->
   fst (AuthRoutes.register ae d body) = d) /\
  (code (snd (AuthRoutes.register ae d body)) = 201 ->
   exists data user,
     AuthRoutes.registerSchema_parse (ae_is_email ae) body = Ok data /\
     AuthRoutes.current_authType d = "jwt" /\
     Storage.getUserByUsername d (AuthRoutes.rg_username data) = None /\
     users (fst (AuthRoutes.register ae d body)) = (users d ++ [user])%list /\
     authConfig (fst (AuthRoutes.register ae d body)) = authConfig d /\
     User.username user = Some (AuthRoutes.rg_username data) /\
     User.password user =
       Some (bcrypt_hash (ae_crypto ae) (AuthRoutes.rg_password data)) /\
     User.role user = "user" /\ User.authType user = "jwt").
Proof.
  split; [|apply register_created].
  unfold AuthRoutes.register.
  destruct (negb _); simpl; auto.
  destruct (AuthRoutes.registerSchema_parse _ _) as [data|[]]; simpl; auto.
  destruct (Storage.getUserByUsername _ _); simpl; auto.
  destruct (StorageMore.createUser _ _ _) as [[d1 user]|]; simpl; auto.
  intros H. contradiction.
Qed.

(** X26.  Registration and login fit together: when the hashing library
    accepts a password against its own hash and never yields an empty
    hash, a login with the name and password of a registration that was
    answered 201 is answered 200. *)
Theorem register_then_login (ae : AuthEnv) (d : Db) (body : RegisterBody) :
  code (snd (AuthRoutes.register ae d body)) = 201 ->
  (forall pw, bcrypt_compare (ae_crypto ae) pw
                (bcrypt_hash (ae_crypto ae) pw) = true) ->
  (forall pw, bcrypt_hash (ae_crypto ae) pw <> "") ->
  ae_session_ok ae = true ->
  code (snd (AuthRoutes.login ae (fst (AuthRoutes.register ae d body))
               (mkLoginBody (gb_username body) (gb_password body)))) = 200.
Proof.
  intros H Hcmp Hne Hs.
  destruct (register_created ae d body H)
    as [data [user [Hp [Hm [Hu [Husers [Hcfg [Hname [Hpw _]]]]]]]]].
  destruct (registerSchema_fields _ _ _ Hp) as [Hf1 [Hl1 [Hf2 [Hl2 _]]]].
  set (d1 := fst (AuthRoutes.register ae d body)) in *.
  assert (Hparse : AuthRoutes.loginSchema_parse
            (mkLoginBody (gb_username body) (gb_password body)) =
            Ok (AuthRoutes.rg_username data, AuthRoutes.rg_password data)).
  { apply loginSchema_ok. simpl. repeat split; auto; lia. }
  assert (Hmode : AuthRoutes.current_authType d1 = "jwt").
  { unfold AuthRoutes.current_authType, Storage.getActiveAuthConfig in *.
    rewrite Hcfg. exact Hm. }
  assert (Hfound : Storage.getUserByUsername d1 (AuthRoutes.rg_username data)
                   = Some user).
  { unfold Storage.getUserByUsername in *. rewrite Husers, find_snoc, Hu.
    rewrite Hname, String.eqb_refl. reflexivity. }
  unfold AuthRoutes.login. rewrite Hparse, Hmode. simpl.
  rewrite Hfound, Hpw.
  destruct (bcrypt_hash (ae_crypto ae) (AuthRoutes.rg_password data)) eqn:Hh.
  - exfalso. exact (Hne _ Hh).
  - simpl. rewrite <- Hh, Hcmp, Hs. reflexivity.
Qed.

Lemma register_then_login_witness :
  code (snd (AuthRoutes.login Sample3.auth_env
               (fst (AuthRoutes.register Sample3.auth_env Sample3.local_db
                       Sample3.ann_registration))
               (mkLoginBody (Present "ann") (Present "ann-secret")))) = 200.
Proof.
  apply (register_then_login Sample3.auth_env Sample3.local_db
           Sample3.ann_registration).
  - reflexivity.
  - intros pw. simpl. apply String.eqb_refl.
  - intros pw H. discriminate H.
  - reflexivity.
Defined.

Lemma active_after_set (d : Db) (clock : Z) (authType : string)
    (config : Json) :
  exists row,
    Storage.getActiveAuthConfig (Storage.setAuthConfig d clock authType config)
      = Some row /\
    AuthConfig.authType row = authType /\ AuthConfig.config row = config.
Proof.
  exists (AuthConfig.mk (auth_config_id_seq d) authType true config
                        clock clock).
  split; [|split; reflexivity].
  unfold Storage.getActiveAuthConfig. simpl.
  induction (authConfig d) as [|c l IH]; simpl; auto.
Qed.

Lemma setting_without_keys (config : Json) (key : string)
    (var : option string) :
  config = JNull \/ config = JObject [] ->
  AuthService.setting config key var = var.
Proof. intros [-> | ->]; reflexivity. Qed.

Lemma gate_halts_with_error (ae : AuthEnv) (d : Db) (req : AuthRequest)
    (reply : Reply) :
  AuthRoutes.admin_gate ae d req = Halt reply ->
  code reply = 401 \/ code reply = 403.
Proof.
  unfold AuthRoutes.admin_gate, Auth.isAuthenticated, Auth.isAdmin.
  destruct (_ || _).
  - destruct (req_user req) as [u|]; [destruct (String.eqb _ _)|];
      intros [= <-]; auto.
  - destruct (Auth.bearer_token _); [|intros [= <-]; auto].
    destruct (Auth.verifyJWT _ _ _) as [u|]; [|intros [= <-]; auto].
    simpl. destruct (String.eqb _ _); intros [= <-]; auto.
Qed.

(** X27.  A configuration stored through [POST /api/auth/config] carries
    no settings: the validator keeps no key of the [config] object, so
    every LDAP setting is read from the environment, and the active type
    that [GET /api/auth/methods] reports is the one of the body.  When the
    body has no [config] at all, the stored configuration is [NULL] and
    every LDAP login throws before it reaches the directory. *)
Theorem config_route_keeps_no_settings (ae : AuthEnv) (d : Db)
    (req : AuthRequest) (body : ConfigBody) :
  code (snd (AuthRoutes.post_auth_config ae d req body)) = 200 ->
  let d1 := fst (AuthRoutes.post_auth_config ae d req body) in
  exists authType c,
    cb_authType body = Present authType /\
    Storage.getActiveAuthConfig d1 = Some c /\
    AuthConfig.authType c = authType /\
    snd (AuthRoutes.get_auth_methods d1) =
      mkReply 200 (MethodsPayload authType ["jwt"; "ldap"; "oidc"]) /\
    (forall key var, AuthService.setting (AuthConfig.config c) key var = var) /\
    (authType = "ldap" -> cb_config body = Absent ->
     forall penv dir clock username password,
       AuthService.authenticateLDAP penv dir clock d1 username password =
       (d1, Throw (JsError "TypeError: Cannot read properties of null"))).
Proof.
  unfold AuthRoutes.post_auth_config.
  destruct (AuthRoutes.admin_gate ae d req) as [req'|reply] eqn:Hg.
  2:{ destruct (gate_halts_with_error _ _ _ _ Hg) as [H|H];
        simpl; rewrite H; discriminate. }
  unfold AuthRoutes.authConfigSchema_parse.
  destruct (cb_authType body) as [| |authType] eqn:Ha; simpl; try discriminate.
  destruct (String.eqb authType "jwt" || String.eqb authType "ldap" ||
            String.eqb authType "oidc") eqn:He; simpl; [|discriminate].
  assert (Htruthy : JsString.truthy authType = true).
  { destruct authType; [discriminate | reflexivity]. }
  destruct (cb_config body) as [| |[| |fields]] eqn:Hc; simpl;
    try discriminate; intros _.
  - destruct (active_after_set d (ae_now ae) authType JNull)
      as [row [Hrow [Hty Hcfg]]].
    exists authType, row. repeat split; auto.
    + unfold AuthRoutes.get_auth_methods, AuthRoutes.current_authType.
      rewrite Hrow, Hty, Htruthy. reflexivity.
    + intros key var. apply setting_without_keys. auto.
    + intros Hl _ penv dir clock username password.
      unfold AuthService.authenticateLDAP.
      rewrite Hrow, Hty, Hl, Hcfg. reflexivity.
  - destruct (active_after_set d (ae_now ae) authType (JObject []))
      as [row [Hrow [Hty Hcfg]]].
    exists authType, row. repeat split; auto.
    + unfold AuthRoutes.get_auth_methods, AuthRoutes.current_authType.
      rewrite Hrow, Hty, Htruthy. reflexivity.
    + intros key var. apply setting_without_keys. auto.
    + intros _ H. discriminate H.
Qed.

Lemma config_route_keeps_no_settings_witness :
  exists authType c,
    cb_authType (mkConfigBody (Present "ldap") Absent) = Present authType /\
    Storage.getActiveAuthConfig
      (fst (AuthRoutes.post_auth_config Sample3.auth_env Sample3.local_db
              (Sample3.bearer "token:admin-default")
              (mkConfigBody (Present "ldap") Absent))) = Some c /\
    AuthConfig.authType c = authType.
Proof.
  destruct (config_route_keeps_no_settings Sample3.auth_env Sample3.local_db
              (Sample3.bearer "token:admin-default")
              (mkConfigBody (Present "ldap") Absent))
    as [authType [c [H1 [H2 [H3 _]]]]].
  - reflexivity.
  - exists authType, c. auto.
Defined.

(** X28.  A request without a session reaches the configuration routes
    exactly when its bearer token verifies to the key of a row of [users]
    whose [role] is ["admin"]: the role is read from the table at each
    request, not from the token.  Any other request is answered by the
    middleware and changes nothing. *)
Theorem admin_gate_follows_table (ae : AuthEnv) (d : Db) (req : AuthRequest) :
  session_authenticated req = false ->
  req_user req = None ->
  ((exists req', AuthRoutes.admin_gate ae d req = Next req') <->
   (exists token id user,
      Auth.bearer_token (authorization req) = Some token /\
      jwt_verify (ae_crypto ae) token = Some id /\
      Storage.getUser d id = Some user /\
      User.role user = "admin")) /\
  (forall reply body,
     AuthRoutes.admin_gate ae d req = Halt reply ->
     AuthRoutes.post_auth_config ae d req body = (d, reply) /\
     AuthRoutes.get_auth_config ae d req = (d, reply)).
Proof.
  intros Hs Hu. split.
  - unfold AuthRoutes.admin_gate, Auth.isAuthenticated, Auth.verifyJWT.
    rewrite Hs, Hu. simpl.
    destruct (Auth.bearer_token (authorization req)) as [token|].
    2:{ split; [intros [r H]; discriminate|].
        intros [t [i [u [H _]]]]. discriminate. }
    destruct (jwt_verify (ae_crypto ae) token) as [id|] eqn:Hv.
    2:{ split; [intros [r H]; discriminate|].
        intros [t [i [u [H [H' _]]]]]. injection H as <-. congruence. }
    destruct (Storage.getUser d id) as [user|] eqn:Hg.
    2:{ split; [intros [r H]; discriminate|].
        intros [t [i [u [H [H' [H'' _]]]]]]. injection H as <-.
        rewrite Hv in H'. injection H' as <-. congruence. }
    unfold Auth.isAdmin. simpl.
    destruct (String.eqb (User.role user) "admin") eqn:Hr.
    + split; [intros _|eauto].
      exists token, id, user. apply String.eqb_eq in Hr. auto.
    + split; [intros [r H]; discriminate|].
      intros [t [i [u [H [H' [H'' Hrole]]]]]]. injection H as <-.
      rewrite Hv in H'. injection H' as <-. rewrite Hg in H''.
      injection H'' as <-. apply String.eqb_neq in Hr. contradiction.
  - intros reply body Hh.
    unfold AuthRoutes.post_auth_config, AuthRoutes.get_auth_config.
    rewrite Hh. auto.
Qed.

Lemma admin_gate_follows_table_witness :
  exists req',
    AuthRoutes.admin_gate Sample3.auth_env Sample3.local_db
      (Sample3.bearer "token:admin-default") = Next req'.
Proof.
  destruct (admin_gate_follows_table Sample3.auth_env Sample3.local_db
              (Sample3.bearer "token:admin-default")) as [[_ H] _].
  - reflexivity.
  - reflexivity.
  - apply H. exists "token:admin-default", "admin-default".
    eexists. repeat split; reflexivity.
Defined.

End AuthProps.

(* ================================================================== *)
(** * Properties of the booking form *)

Module FormProps.
Import BookingForm JsString JsStringFacts.

Lemma below_In (n : nat) (a : Z) : 0 <= a < Z.of_nat n -> In a (below n).
Proof.
  intros H. unfold below. apply in_map_iff. exists (Z.to_nat a). split.
  - lia.
  - apply in_seq. lia.
Qed.

Lemma same_comparison_eq (a b : comparison) :
  same_comparison a b = true -> a = b.
Proof. destruct a, b; simpl; congruence. Qed.

Lemma two_digits_checked :
  forallb (fun a => forallb (fun b =>
    same_comparison (String.compare (two a) (two b)) (Z.compare a b) &&
    Nat.eqb (String.length (two a)) 2) (below 60)) (below 60) = true.
Proof. vm_compute. reflexivity. Qed.

Lemma two_digits (a b : Z) :
  0 <= a < 60 -> 0 <= b < 60 ->
  String.compare (two a) (two b) = Z.compare a b /\
  String.length (two a) = 2%nat.
Proof.
  intros Ha Hb. pose proof two_digits_checked as H.
  rewrite forallb_forall in H. specialize (H a (below_In 60 a Ha)).
  rewrite forallb_forall in H. specialize (H b (below_In 60 b Hb)).
  apply andb_true_iff in H as [H1 H2].
  split; [apply same_comparison_eq; exact H1 | apply Nat.eqb_eq; exact H2].
Qed.

Lemma compare_refl (s : string) : String.compare s s = Eq.
Proof.
  induction s as [|c s IH]; simpl; auto.
  replace (Ascii.compare c c) with Eq; auto.
  symmetry. unfold Ascii.compare. apply N.compare_refl.
Qed.

Lemma compare_app (a b x y : string) :
  String.length a = String.length b ->
  String.compare (a ++ x) (b ++ y) =
  match String.compare a b with
  | Eq => String.compare x y
  | c => c
  end.
Proof.
  revert b. induction a as [|c a IH]; intros [|c' b] H; simpl in *;
    try discriminate; auto.
  destruct (Ascii.compare c c'); auto.
Qed.

(** The order of the strings of two times of day is the order of the
    times. *)
Lemma time_string_order (h m h' m' : Z) :
  0 <= h < 24 -> 0 <= m < 60 -> 0 <= h' < 24 -> 0 <= m' < 60 ->
  (Lts (time_string h m) (time_string h' m') <-> h * 60 + m < h' * 60 + m').
Proof.
  intros Hh Hm Hh' Hm'.
  assert (Hc : String.compare (time_string h m) (time_string h' m') =
               match Z.compare h h' with
               | Eq => Z.compare m m'
               | c => c
               end).
  { unfold time_string. fold (two h) (two m) (two h') (two m').
    destruct (two_digits h h') as [E1 L1]; [lia|lia|].
    destruct (two_digits h' h) as [_ L2]; [lia|lia|].
    destruct (two_digits m m') as [E2 _]; [lia|lia|].
    rewrite compare_app by congruence. rewrite E1.
    destruct (h ?= h'); [|reflexivity|reflexivity].
    simpl. exact E2. }
  unfold Lts, String_as_OT.lt. rewrite <- compare_agree, Hc.
  destruct (Z.compare_spec h h') as [E|L|G].
  - subst. rewrite Z.compare_lt_iff. lia.
  - split; [lia | reflexivity].
  - split; [discriminate | lia].
Qed.

Lemma endTime_parts (h m duration : Z) :
  endTime h m duration =
  time_string (endHours h m duration) (endMins h m duration).
Proof. reflexivity. Qed.

(** X29.  For a start time of the day and a duration the form allows (up
    to 480 minutes), the end time the form computes is a time of the day,
    and as a string it lies after the start time exactly when the meeting
    ends before midnight: a meeting that reaches or passes midnight is
    submitted with an end time that is not after its start time. *)
Theorem endTime_after_start (h m duration : Z) :
  0 <= h < 24 -> 0 <= m < 60 -> 0 < duration <= 480 ->
  0 <= endHours h m duration < 24 /\
  0 <= endMins h m duration < 60 /\
  (Lts (time_string h m) (endTime h m duration) <->
   h * 60 + m + duration < 1440).
Proof.
  intros Hh Hm Hd. unfold endHours, endMins.
  set (total := h * 60 + m + duration).
  assert (Ht : 0 <= total < 2880) by (unfold total; lia).
  assert (Hq : 0 <= total / 60 < 48).
  { split; [apply Z.div_pos; lia | apply Z.div_lt_upper_bound; lia]. }
  rewrite !Z.rem_mod_nonneg by lia.
  pose proof (Z.mod_pos_bound (total / 60) 24 ltac:(lia)) as B1.
  pose proof (Z.mod_pos_bound total 60 ltac:(lia)) as B2.
  split; [exact B1|]. split; [exact B2|].
  rewrite endTime_parts. unfold endHours, endMins. fold total.
  rewrite !Z.rem_mod_nonneg by lia.
  rewrite time_string_order by lia.
  pose proof (Z.div_mod total 60 ltac:(lia)) as D1.
  pose proof (Z.div_mod (total / 60) 24 ltac:(lia)) as D2.
  assert (Hq2 : total / 60 / 24 = 0 \/ total / 60 / 24 = 1).
  { assert (0 <= total / 60 / 24 < 2).
    { split; [apply Z.div_pos; lia | apply Z.div_lt_upper_bound; lia]. }
    lia. }
  unfold total in *. lia.
Qed.

Lemma endTime_after_start_witness :
  ~ Lts (time_string 23 0) (endTime 23 0 60).
Proof.
  destruct (endTime_after_start 23 0 60) as [_ [_ H]]; try lia.
  intro L. apply H in L. lia.
Defined.

(** X30.  Opening a booking for editing recomputes the duration from the
    two times: for a booking the form created, it is the duration that was
    entered when the meeting ends before midnight, and that duration
    minus 1440, a negative number, when it does not. *)
Theorem duration_round_trip (h m duration : Z) :
  0 <= h < 24 -> 0 <= m < 60 -> 0 < duration <= 480 ->
  duration_of h m (endHours h m duration) (endMins h m duration) =
  if h * 60 + m + duration <? 1440 then duration else duration - 1440.
Proof.
  intros Hh Hm Hd. unfold duration_of, endHours, endMins.
  set (total := h * 60 + m + duration).
  assert (Ht : 0 <= total < 2880) by (unfold total; lia).
  assert (Hq : 0 <= total / 60 < 48).
  { split; [apply Z.div_pos; lia | apply Z.div_lt_upper_bound; lia]. }
  rewrite !Z.rem_mod_nonneg by lia.
  pose proof (Z.mod_pos_bound (total / 60) 24 ltac:(lia)) as B1.
  pose proof (Z.mod_pos_bound total 60 ltac:(lia)) as B2.
  pose proof (Z.div_mod total 60 ltac:(lia)) as D1.
  pose proof (Z.div_mod (total / 60) 24 ltac:(lia)) as D2.
  assert (Hq2 : 0 <= total / 60 / 24 < 2).
  { split; [apply Z.div_pos; lia | apply Z.div_lt_upper_bound; lia]. }
  destruct (total <? 1440) eqn:E.
  - apply Z.ltb_lt in E. unfold total in *. lia.
  - apply Z.ltb_ge in E. unfold total in *. lia.
Qed.

Lemma duration_round_trip_witness :
  duration_of 23 0 (endHours 23 0 60) (endMins 23 0 60) = -1380.
Proof.
  rewrite (duration_round_trip 23 0 60); try lia. reflexivity.
Defined.

End FormProps.
